(** * anki_flashcard_adder.py: a shallow embedding and its properties

    The script asks a generative-language service for the back of a
    flashcard and stores the card through the AnkiConnect control port.
    Its functions are embedded as functions of a small state-and-exception
    monad over an explicit world: the environment variable, the lines waiting
    on standard input, the characters the console can write, the replies the
    network will give, and the log of everything the run printed, asked and
    sent. *)

From Stdlib Require Import List Bool Arith NArith ZArith Lia.
From Stdlib Require Import Ascii String DecimalString.
From Stdlib Require SpecFloat.
Import ListNotations.

Set Implicit Arguments.
#[local] Set Warnings "-register-all".

(* ================================================================== *)
(** * Python strings and bytes *)
(* ================================================================== *)

Module Str.

(** A Python [str] is a sequence of Unicode code points, a [bytes] object a
    sequence of octets. *)
Definition char := N.
Definition str := list char.
Definition bytes := list N.

(** Literals of the source are written [u "..."]; all of them are ASCII. *)
Definition u (s : string) : str :=
  map N_of_ascii (list_ascii_of_string s).
Arguments u s : simpl never.

Definition nl : str := [10%N].
Definition comma : char := 44%N.

Fixpoint eqb (s t : str) : bool :=
  match s, t with
  | [], [] => true
  | a :: s', b :: t' => N.eqb a b && eqb s' t'
  | _, _ => false
  end.

(** [str.isspace] on one code point: the code points whose bidirectional
    class is WS, B or S, or whose category is Zs. *)
Definition isspace (c : char) : bool :=
  ((9 <=? c) && (c <=? 13) || (28 <=? c) && (c <=? 32)
   || (c =? 133) || (c =? 160) || (c =? 5760)
   || (8192 <=? c) && (c <=? 8202)
   || (c =? 8232) || (c =? 8233) || (c =? 8239) || (c =? 8287)
   || (c =? 12288))%N.

Fixpoint dropwhile (p : char -> bool) (s : str) : str :=
  match s with
  | [] => []
  | c :: s' => if p c then dropwhile p s' else s
  end.

Definition lstrip (s : str) : str := dropwhile isspace s.
Definition rstrip (s : str) : str := rev (dropwhile isspace (rev s)).

(** [s.strip()] *)
Definition strip (s : str) : str := rstrip (lstrip s).

(** [s.split(sep)] for a separator of one character; the result is never
    empty: the empty string splits into one empty piece. *)
Fixpoint split (sep : char) (s : str) : list str :=
  match s with
  | [] => [[]]
  | c :: s' =>
      if N.eqb c sep then [] :: split sep s'
      else match split sep s' with
           | [] => [[c]]
           | p :: ps => (c :: p) :: ps
           end
  end.

(** [sep.join(l)] *)
Fixpoint join (sep : str) (l : list str) : str :=
  match l with
  | [] => []
  | [s] => s
  | s :: l' => s ++ sep ++ join sep l'
  end.

(** [s.lower()] on the ASCII capitals.  The script compares the lowered
    answer with ['y'] only, and no code point other than [Y] lowers to
    [y]; the other cased letters are left as they are. *)
Definition lower_char (c : char) : char :=
  if ((65 <=? c) && (c <=? 90))%N then (c + 32)%N else c.
Definition lower (s : str) : str := map lower_char s.

(** [sub in s] for two strings *)
Fixpoint startswith (p s : str) : bool :=
  match p, s with
  | [], _ => true
  | a :: p', b :: s' => N.eqb a b && startswith p' s'
  | _ :: _, [] => false
  end.

Fixpoint contains (sub s : str) : bool :=
  startswith sub s ||
  match s with
  | [] => false
  | _ :: s' => contains sub s'
  end.

(** [str(n)] for an integer *)
Definition decimal (n : Z) : str :=
  u (NilZero.string_of_int (Z.to_int n)).
Arguments decimal n : simpl never.

(** ** [bytes.decode()]: strict UTF-8 *)

Definition cont (b : N) : bool := ((128 <=? b) && (b <=? 191))%N.
Definition low6 (b : N) : N := (b mod 64)%N.

(** The well-formed byte sequences of the Unicode standard: no overlong
    form, no surrogate, nothing above U+10FFFF.  [None] is
    [UnicodeDecodeError]. *)
Fixpoint decode_fuel (fuel : nat) (b : bytes) : option str :=
  match fuel with
  | O => match b with [] => Some [] | _ => None end
  | S fuel' =>
      match b with
      | [] => Some []
      | b0 :: r0 =>
          if (b0 <? 128)%N then option_map (cons b0) (decode_fuel fuel' r0)
          else if ((194 <=? b0) && (b0 <=? 223))%N then
            match r0 with
            | b1 :: r1 =>
                if cont b1 then
                  option_map (cons ((b0 mod 32) * 64 + low6 b1)%N)
                             (decode_fuel fuel' r1)
                else None
            | _ => None
            end
          else if ((224 <=? b0) && (b0 <=? 239))%N then
            match r0 with
            | b1 :: b2 :: r2 =>
                if cont b1 && cont b2
                   && (negb (b0 =? 224)%N || (160 <=? b1)%N)
                   && (negb (b0 =? 237)%N || (b1 <=? 159)%N) then
                  option_map
                    (cons ((b0 mod 16) * 4096 + low6 b1 * 64 + low6 b2)%N)
                    (decode_fuel fuel' r2)
                else None
            | _ => None
            end
          else if ((240 <=? b0) && (b0 <=? 244))%N then
            match r0 with
            | b1 :: b2 :: b3 :: r3 =>
                if cont b1 && cont b2 && cont b3
                   && (negb (b0 =? 240)%N || (144 <=? b1)%N)
                   && (negb (b0 =? 244)%N || (b1 <=? 143)%N) then
                  option_map
                    (cons ((b0 mod 8) * 262144 + low6 b1 * 4096
                           + low6 b2 * 64 + low6 b3)%N)
                    (decode_fuel fuel' r3)
                else None
            | _ => None
            end
          else None
      end
  end.

Definition decode (b : bytes) : option str := decode_fuel (List.length b) b.

End Str.

Import Str.

Local Open Scope list_scope.

(* ================================================================== *)
(** * Python values, as [json.loads] builds them *)
(* ================================================================== *)

(** [None], [bool], [int], [float], [str], [list] and [dict] with string
    keys.  A dict is the list of its items in insertion order; a key is
    looked up from the front. *)
Inductive json : Type :=
| JNull
| JBool (b : bool)
| JInt (n : Z)
| JFloat (f : SpecFloat.spec_float)
| JStr (s : str)
| JArr (l : list json)
| JObj (kv : list (str * json)).

Fixpoint assoc {A : Type} (k : str) (kv : list (str * A)) : option A :=
  match kv with
  | [] => None
  | (k', v) :: kv' => if Str.eqb k k' then Some v else assoc k kv'
  end.

(** [bool(v)], the test of [if v] and of [a and b] *)
Definition truthy (v : json) : bool :=
  match v with
  | JNull => false
  | JBool b => b
  | JInt n => negb (Z.eqb n 0)
  | JFloat (SpecFloat.S754_zero _) => false
  | JFloat _ => true
  | JStr s => match s with [] => false | _ => true end
  | JArr l => match l with [] => false | _ => true end
  | JObj kv => match kv with [] => false | _ => true end
  end.

(** [v is None] *)
Definition is_None (v : json) : bool :=
  match v with JNull => true | _ => false end.

(** ** Exceptions *)

(** Every exception of the model derives from [Exception]; interrupts
    ([KeyboardInterrupt], [SystemExit]) are outside it. *)
Inductive error_class : Type :=
| URLError | OSError | UnicodeDecodeError | UnicodeEncodeError | ValueError
| KeyError | IndexError | TypeError | AttributeError
| UnboundLocalError | EOFError.

Inductive exc : Type :=
| HTTPError (code : Z) (reason : str) (content : bytes)
    (* urllib.error.HTTPError; [content] is what [e.read()] gives *)
| JSONDecodeError (text : str)
| PlainException (arg : json)               (* Exception(arg) *)
| StdError (cls : error_class) (text : str). (* any other class *)

Inductive outcome (A : Type) : Type :=
| Returns (a : A)
| Raises (e : exc).
Arguments Returns {A} a.
Arguments Raises {A} e.

(** ** The outside world *)

Record response : Type := Response {
  status : Z;
  reason : str;
  content : bytes          (* what [response.read()] gives *)
}.

(** What [urlopen] does with one request.  The library raises
    [HTTPError] for an error status (4xx, 5xx) and returns the response
    for a 2xx one; the model lets either come with any status. *)
Inductive reply : Type :=
| Refuses (e : exc)
| Responds (r : response).

(** [urllib.request.Request(url, data, headers)]; [data] is the value
    handed to [json.dumps(...).encode('utf-8')], recorded before it is
    serialised. *)
Record request : Type := Request {
  url : str;
  data : json;
  headers : list (str * str)
}.

Inductive event : Type :=
| Printed (line : str)                        (* print(line) *)
| Asked (prompt : str) (answer : option str)  (* input(prompt) *)
| Exchanged (req : request) (rep : reply).    (* urlopen(req) *)

(** [sys.stdout] encodes what is written to it with the encoding of the
    console (UTF-8, a code page, ASCII) and the error handler [strict].  The
    encodings of a console all have the ASCII characters and differ in what
    else they have: [charset] says which of the other characters the console
    of this run can write. *)
Record world : Type := World {
  environ : list (str * str);   (* os.environ *)
  stdin : list str;             (* the lines the user will type *)
  charset : char -> bool;       (* what sys.stdout encodes beyond ASCII *)
  net : list reply;             (* the replies the network will give *)
  trace : list event            (* what has happened, oldest first *)
}.

Definition log (ev : event) (w : world) : world :=
  {| environ := environ w; stdin := stdin w; charset := charset w;
     net := net w; trace := trace w ++ [ev] |}.

(** A character the console can write, and a text of such characters. *)
Definition encodes (cs : char -> bool) (c : char) : bool :=
  (c <? 128)%N || cs c.

Definition encodable (cs : char -> bool) (s : str) : bool :=
  forallb (encodes cs) s.
Arguments encodable cs s : simpl never.

(** ** The monad of the script: state and exceptions *)

(** The user's lines and the replies of the network are fixed beforehand,
    in the order in which the run will meet them. *)

Definition M (A : Type) : Type := world -> outcome A * world.

Definition ret {A : Type} (a : A) : M A := fun w => (Returns a, w).

Definition bind {A B : Type} (m : M A) (k : A -> M B) : M B :=
  fun w =>
    match m w with
    | (Returns a, w') => k a w'
    | (Raises e, w') => (Raises e, w')
    end.

Declare Scope py_scope.
Delimit Scope py_scope with py.
Notation "x <- m ;; k" := (bind m (fun x => k))
  (at level 61, m at next level, right associativity) : py_scope.
Notation "m ;; k" := (bind m (fun _ => k))
  (at level 61, right associativity) : py_scope.
Local Open Scope py_scope.

(** A value or an exception computed without touching the world. *)
Definition lift {A : Type} (o : outcome A) : M A := fun w => (o, w).

(** [try: body  except ...: handler].  The handler says which exceptions
    it takes; an exception raised inside a handler is not caught by the
    same statement. *)
Definition try_except {A : Type} (body : M A) (handler : exc -> option (M A))
  : M A :=
  fun w =>
    match body w with
    | (Returns a, w') => (Returns a, w')
    | (Raises e, w') =>
        match handler e with
        | Some h => h w'
        | None => (Raises e, w')
        end
    end.

(** When the script of replies is used up nothing answers. *)
Definition connection_refused : exc :=
  StdError URLError (u "<urlopen error [Errno 111] Connection refused>").

Definition first_reply (replies : list reply) : reply :=
  match replies with
  | r :: _ => r
  | [] => Refuses connection_refused
  end.

Definition next_reply (w : world) : reply := first_reply (net w).

(** [urllib.request.urlopen(req)] *)
Definition urlopen (req : request) : M response :=
  fun w =>
    let w' := {| environ := environ w; stdin := stdin w;
                 charset := charset w; net := tl (net w);
                 trace := trace w ++ [Exchanged req (next_reply w)] |} in
    match next_reply w with
    | Refuses e => (Raises e, w')
    | Responds r => (Returns r, w')
    end.

(** [os.environ.get(name)] *)
Definition environ_get (name : str) : M (option str) :=
  fun w => (Returns (assoc name (environ w)), w).

(** [for x in l: body(x)] *)
Fixpoint for_each {A : Type} (l : list A) (body : A -> M unit) : M unit :=
  match l with
  | [] => ret tt
  | x :: l' => body x ;; for_each l' body
  end.

(* ================================================================== *)
(** * Example worlds *)
(* ================================================================== *)

(** JSON text is written with an apostrophe where the text has a double
    quote. *)
Definition json_text (s : string) : bytes :=
  map (fun c => if N.eqb c 39 then 34%N else c) (u s).

(** The bodies of the examples and the values [json.loads] gives for
    them. *)
Definition known_bodies : list (bytes * json) :=
  [(json_text "{'result': ['Default'], 'error': null}",
    JObj [(u "result", JArr [JStr (u "Default")]); (u "error", JNull)]);
   (json_text "{'result': ['AI_Adder'], 'error': null}",
    JObj [(u "result", JArr [JStr (u "AI_Adder")]); (u "error", JNull)]);
   (json_text "{'result': 1519323742721, 'error': null}",
    JObj [(u "result", JInt 1519323742721); (u "error", JNull)]);
   (json_text "{'candidates': [{'content': {'parts': [{'text': '<p>Def</p><i>Example</i>'}]}}]}",
    JObj [(u "candidates",
           JArr [JObj [(u "content",
                        JObj [(u "parts",
                               JArr [JObj [(u "text",
                                            JStr (u "<p>Def</p><i>Example</i>"))]])])]])]);
   (json_text "{'result': 1496198395707, 'error': null}",
    JObj [(u "result", JInt 1496198395707); (u "error", JNull)]);
   (json_text "{'result': null, 'error': 'cannot create note because it is a duplicate'}",
    JObj [(u "result", JNull);
          (u "error",
           JStr (u "cannot create note because it is a duplicate"))]);
   (json_text "{'result': null, 'error': '\ud800'}",
    JObj [(u "result", JNull); (u "error", JStr [55296%N])])].

(** A parser that knows these bodies and rejects every other text. *)
Definition table_loads (text : list N) : outcome json :=
  match assoc text known_bodies with
  | Some v => Returns v
  | None =>
      Raises (JSONDecodeError (u "Expecting value: line 1 column 1 (char 0)"))
  end.

(** [repr] of the constants; the examples render nothing else. *)
Definition constant_repr (v : json) : str :=
  match v with
  | JNull => u "None"
  | JBool true => u "True"
  | JBool false => u "False"
  | JInt n => decimal n
  | _ => u "..."
  end.

Definition class_name (cls : error_class) (operand : json) : str :=
  match cls with
  | URLError => u "URLError"
  | OSError => u "OSError"
  | UnicodeDecodeError => u "UnicodeDecodeError"
  | UnicodeEncodeError => u "UnicodeEncodeError"
  | ValueError => u "ValueError"
  | KeyError => u "KeyError"
  | IndexError => u "IndexError"
  | TypeError => u "TypeError"
  | AttributeError => u "AttributeError"
  | UnboundLocalError => u "UnboundLocalError"
  | EOFError => u "EOFError"
  end.

Definition ok_reply (body : string) : reply :=
  Responds {| status := 200; reason := u "OK"; content := json_text body |}.

Definition decks_reply : reply :=
  ok_reply "{'result': ['Default'], 'error': null}".

Definition created_reply : reply :=
  ok_reply "{'result': 1519323742721, 'error': null}".

Definition generated_reply : reply :=
  ok_reply "{'candidates': [{'content': {'parts': [{'text': '<p>Def</p><i>Example</i>'}]}}]}".

Definition added_reply : reply :=
  ok_reply "{'result': 1496198395707, 'error': null}".

Definition duplicate_reply : reply :=
  ok_reply "{'result': null, 'error': 'cannot create note because it is a duplicate'}".

(** An error envelope whose message is the escape of a lone surrogate,
    which [json.load] reads as the one character U+D800. *)
Definition surrogate_error_reply : reply :=
  ok_reply "{'result': null, 'error': '\ud800'}".

(** A gateway answers 502 with a body that is not UTF-8. *)
Definition bad_gateway : reply :=
  Refuses (HTTPError 502 (u "Bad Gateway") [255%N]).

(** A 404 whose page is Latin-1: [caf\xe9]. *)
Definition latin1_not_found : reply :=
  Refuses (HTTPError 404 (u "Not Found") [99; 97; 102; 233]%N).

Definition example_env : list (str * str) :=
  [(u "GEMINI_API_KEY", u "k3y")].

(** A UTF-8 console writes every character but the surrogates; an ASCII
    console nothing beyond ASCII. *)
Definition utf8 (c : char) : bool := ((c <? 55296) || (57343 <? c))%N.

Definition ascii_only (c : char) : bool := false.

(* ================================================================== *)
(** * The script *)
(* ================================================================== *)

Section Script.

(** The library functions the script calls and that are not modelled:
    the JSON parser, on text ([json.loads]) and on a body as it was read
    ([json.load]); [repr] of a value that is not a string; and the wording
    of the errors the interpreter raises, which changes between versions. *)
Variable json_loads : str -> outcome json.
Variable json_load : bytes -> outcome json.
Variable repr : json -> str.
Variable error_text : error_class -> json -> str.

(** [str(v)], as an f-string renders [{v}] *)
Definition py_str (v : json) : str :=
  match v with
  | JStr s => s
  | _ => repr v
  end.

(** [str(e)] *)
Definition exc_str (e : exc) : str :=
  match e with
  | HTTPError code reason _ =>
      u "HTTP Error " ++ decimal code ++ u ": " ++ reason
  | JSONDecodeError text => text
  | PlainException arg => py_str arg
  | StdError _ text => text
  end.

Definition error {A : Type} (cls : error_class) (operand : json)
  : outcome A :=
  Raises (StdError cls (error_text cls operand)).

(** ** The console *)

(** What writing [text] to [sys.stdout] raises when the console cannot
    encode it. *)
Definition encode_error (text : str) : exc :=
  StdError UnicodeEncodeError (error_text UnicodeEncodeError (JStr text)).

(** [print(line)]: the line is encoded as a whole before any of it is
    written. *)
Definition print (line : str) : M unit :=
  fun w =>
    if encodable (charset w) line then (Returns tt, log (Printed line) w)
    else (Raises (encode_error line), w).

(** [input(prompt)]: the prompt is written to [sys.stdout] first; at the
    end of the input the call raises [EOFError]. *)
Definition input (prompt : str) : M str :=
  fun w =>
    if encodable (charset w) prompt then
      match stdin w with
      | a :: rest =>
          (Returns a,
           {| environ := environ w; stdin := rest; charset := charset w;
              net := net w;
              trace := trace w ++ [Asked prompt (Some a)] |})
      | [] =>
          (Raises (StdError EOFError (u "EOF when reading a line")),
           log (Asked prompt None) w)
      end
    else (Raises (encode_error prompt), w).

(** ** Operations on values *)

(** [v.get(k)]: only a dict has the method. *)
Definition py_get (v : json) (k : str) : outcome json :=
  match v with
  | JObj kv => Returns (match assoc k kv with Some x => x | None => JNull end)
  | _ => error AttributeError v
  end.

(** [len(v)] *)
Definition py_len (v : json) : outcome nat :=
  match v with
  | JStr s => Returns (List.length s)
  | JArr l => Returns (List.length l)
  | JObj kv => Returns (List.length kv)
  | _ => error TypeError v
  end.

(** [v[i]] for an index [i >= 0]; a decoded dict has no integer key. *)
Definition py_index (v : json) (i : nat) : outcome json :=
  match v with
  | JArr l =>
      match nth_error l i with
      | Some x => Returns x
      | None => error IndexError v
      end
  | JStr s =>
      match nth_error s i with
      | Some c => Returns (JStr [c])
      | None => error IndexError v
      end
  | JObj _ => error KeyError (JInt (Z.of_nat i))
  | _ => error TypeError v
  end.

(** [v[k]] for a string [k] *)
Definition py_item (v : json) (k : str) : outcome json :=
  match v with
  | JObj kv =>
      match assoc k kv with
      | Some x => Returns x
      | None => error KeyError (JStr k)
      end
  | _ => error TypeError v
  end.

(** The items [for x in v] goes through: the elements of a list, the keys
    of a dict, the characters of a string. *)
Definition py_iter (v : json) : outcome (list json) :=
  match v with
  | JArr l => Returns l
  | JObj kv => Returns (map (fun p => JStr (fst p)) kv)
  | JStr s => Returns (map (fun c => JStr [c]) s)
  | _ => error TypeError v
  end.

Definition is_str (x : str) (v : json) : bool :=
  match v with
  | JStr s => Str.eqb x s
  | _ => false
  end.

(** [x in v] for a string [x]: an equal element of a list, a key of a
    dict, a substring of a string. *)
Definition py_in (x : str) (v : json) : outcome bool :=
  match v with
  | JArr l => Returns (existsb (is_str x) l)
  | JObj kv => Returns (existsb (fun p => Str.eqb x (fst p)) kv)
  | JStr s => Returns (contains x s)
  | _ => error TypeError v
  end.

(** [b.decode()] *)
Definition py_decode (b : bytes) : outcome str :=
  match decode b with
  | Some s => Returns s
  | None => error UnicodeDecodeError JNull
  end.

Definition obind {A B : Type} (o : outcome A) (k : A -> outcome B)
  : outcome B :=
  match o with
  | Returns a => k a
  | Raises e => Raises e
  end.

(** [a and b], where evaluating either side may raise *)
Definition and_then (a : outcome bool) (b : outcome bool) : outcome bool :=
  obind a (fun x => if x then b else Returns false).

(** ** get_gemini_api_key (lines 12-24) *)

Definition get_gemini_api_key : M (option str) :=
  api_key <- environ_get (u "GEMINI_API_KEY") ;;
  match api_key with
  | Some (_ :: _) => ret api_key
  | _ =>
      print (u "---") ;;
      print (u "ERROR: GEMINI_API_KEY environment variable not set.") ;;
      print (u "Please set the environment variable with your Gemini API key.") ;;
      print (u "You can get a key from Google AI Studio.") ;;
      print (u "---") ;;
      ret None
  end.

(** ** generate_flashcard_content (lines 27-92) *)

Definition prompt_for (concept : str) : str :=
  u "You are an assistant that creates educational flashcards. "
  ++ u "For the term '" ++ concept
  ++ u "', provide a clear, concise definition and a simple, "
  ++ u "illustrative example sentence and/or model/instance. "
  ++ u "if the term contains an indication of a foreign language, remove the name of the language from the card title"
  ++ u "If the definition involves multiple distinct concepts or types (like different types of engines), "
  ++ u "please describe each in a separate HTML paragraph (`<p>`). "
  ++ u "Format the entire response using HTML tags. "
  ++ u "The definition should come first, followed by the example. "
  ++ u "Ensure the example is italicized using `<i>` tags. "
  ++ u "Do not include any JSON formatting, just the complete HTML string."
  ++ u "if the provided concept is in quotation marks, cite the quotation as I am trying to commit this quote to memory and want to accurately remember the source".

Definition gemini_payload (concept : str) : json :=
  JObj [(u "contents",
         JArr [JObj [(u "parts",
                      JArr [JObj [(u "text", JStr (prompt_for concept))]])]]);
        (u "generationConfig",
         JObj [(u "response_mime_type", JStr (u "text/plain"))])].

Definition gemini_url (api_key : str) : str :=
  u "https://generativelanguage.googleapis.com/v1beta/models/gemini-2.5-flash:generateContent?key="
  ++ api_key.

Definition gemini_request (api_key concept : str) : request :=
  {| url := gemini_url api_key;
     data := gemini_payload concept;
     headers := [(u "Content-Type", u "application/json")] |}.

(** The test of lines 70-73, evaluated left to right. *)
Definition has_text_part (result : json) : outcome bool :=
  and_then (obind (py_get result (u "candidates"))
              (fun c => Returns (truthy c)))
 (and_then (obind (py_item result (u "candidates"))
              (fun c => obind (py_len c) (fun n => Returns (0 <? n))))
 (and_then (obind (py_item result (u "candidates"))
              (fun c => obind (py_index c 0)
              (fun c0 => obind (py_get c0 (u "content"))
              (fun x => Returns (truthy x)))))
 (and_then (obind (py_item result (u "candidates"))
              (fun c => obind (py_index c 0)
              (fun c0 => obind (py_item c0 (u "content"))
              (fun ct => obind (py_get ct (u "parts"))
              (fun x => Returns (truthy x))))))
           (obind (py_item result (u "candidates"))
              (fun c => obind (py_index c 0)
              (fun c0 => obind (py_item c0 (u "content"))
              (fun ct => obind (py_item ct (u "parts"))
              (fun ps => obind (py_len ps)
              (fun n => Returns (0 <? n)))))))))).

(** [result['candidates'][0]['content']['parts'][0]['text']] (line 74) *)
Definition text_of (result : json) : outcome json :=
  obind (py_item result (u "candidates"))
    (fun c => obind (py_index c 0)
    (fun c0 => obind (py_item c0 (u "content"))
    (fun ct => obind (py_item ct (u "parts"))
    (fun ps => obind (py_index ps 0)
    (fun p0 => py_item p0 (u "text")))))).

(** The line of line 32 *)
Definition announcement (concept : str) : str :=
  nl ++ u "Generating definition and example for '" ++ concept
     ++ u "' using Gemini...".

Definition generate_flashcard_content (api_key concept : str) : M json :=
  print (announcement concept) ;;
  try_except
    (response <- urlopen (gemini_request api_key concept) ;;
     response_body <- lift (py_decode (content response)) ;;
     if Z.eqb (status response) 200 then
       try_except
         (result <- lift (json_loads response_body) ;;
          found <- lift (has_text_part result) ;;
          if found then
            content_html <- lift (text_of result) ;;
            ret content_html
          else
            print (u "Error: No text content found in Gemini API response. Response: "
                   ++ py_str result) ;;
            ret JNull)
         (fun e =>
            match e with
            | JSONDecodeError _ =>
                Some
                  (print (u "Error: Could not decode JSON from Gemini API text response. Response body: "
                          ++ response_body) ;;
                   ret JNull)
            | _ => None
            end)
     else
       print (u "Error from Gemini API (text generation): Status "
              ++ decimal (status response) ++ u ", Reason: "
              ++ reason response ++ u ". Response body: " ++ response_body) ;;
       ret JNull)
    (fun e =>
       match e with
       | HTTPError code rsn body =>
           Some
             (error_body <- lift (py_decode body) ;;
              print (u "HTTP Error from Gemini API (text generation): Status "
                     ++ decimal code ++ u ", Reason: " ++ rsn
                     ++ u ". Response body: " ++ error_body) ;;
              ret JNull)
       | _ =>
           Some
             (print (u "An unexpected error occurred while calling the Gemini API (text generation): "
                     ++ exc_str e) ;;
              ret JNull)
       end).

(** ** anki_request (lines 94-109) *)

Definition anki_url : str := u "http://localhost:8765".

Definition anki_envelope (action : str) (params : list (str * json)) : json :=
  JObj [(u "action", JStr action);
        (u "version", JInt 6);
        (u "params", JObj params)].

Definition anki_http_request (action : str) (params : list (str * json))
  : request :=
  {| url := anki_url; data := anki_envelope action params; headers := [] |}.

(** Lines 102-105: the envelope is decoded, a truthy [error] is raised,
    and the [result] is read. *)
Definition read_envelope (response : response) : outcome json :=
  obind (json_load (content response))
    (fun response_data =>
       obind (py_get response_data (u "error"))
         (fun err =>
            if truthy err then
              obind (py_item response_data (u "error"))
                (fun x => Raises (PlainException x))
            else py_get response_data (u "result"))).

Definition anki_request (action : str) (params : list (str * json)) : M json :=
  let request := anki_http_request action params in
  try_except
    (response <- urlopen request ;;
     lift (read_envelope response))
    (fun e =>
       Some
         (print (u "Error communicating with AnkiConnect: " ++ exc_str e) ;;
          print (u "Please ensure Anki is running and the AnkiConnect add-on is installed and configured correctly.") ;;
          ret JNull)).

(** ** create_flashcard (lines 111-193) *)

Definition favourite_deck : str := u "AI_Adder".

Definition favourite_prompt : str := nl ++ u "AI_Adder?".

Definition deck_name_prompt : str :=
  nl ++ u "Enter the name of the deck to add the card to: ".

Definition create_prompt (deck_name : str) : str :=
  u "Deck '" ++ deck_name ++ u "' does not exist. Create it? (y/n): ".

Definition concept_prompt : str :=
  nl ++ u "Enter the word or concept for the flashcard: ".

Definition tags_prompt : str :=
  u "Enter tags for the card (comma-separated, optional): ".

(** Lines 132-135.  The local variable [deck_name] is bound on two of the
    three paths; [None] is the unbound variable. *)
Definition choose_deck : M (option str) :=
  a1 <- input favourite_prompt ;;
  if Str.eqb a1 (u "y") then ret (Some favourite_deck)
  else
    a2 <- input favourite_prompt ;;
    if Str.eqb a2 (u "n") then
      deck_name <- input deck_name_prompt ;;
      ret (Some deck_name)
    else ret None.

(** Reading a local variable. *)
Definition read_local (name : str) (v : option str) : M str :=
  match v with
  | Some x => ret x
  | None => lift (error UnboundLocalError (JStr name))
  end.

(** Lines 123-149.  [None] is the [return] of [create_flashcard], [Some]
    the deck name the run goes on with. *)
Definition handle_decks : M (option str) :=
  try_except
    (deck_names <- anki_request (u "deckNames") [] ;;
     if is_None deck_names then ret None
     else
       print (nl ++ u "Available Decks:") ;;
       names <- lift (py_iter deck_names) ;;
       for_each names (fun name => print (u "- " ++ py_str name)) ;;
       chosen <- choose_deck ;;
       deck_name <- read_local (u "deck_name") chosen ;;
       present <- lift (py_in deck_name deck_names) ;;
       if negb present then
         create_deck <- input (create_prompt deck_name) ;;
         if Str.eqb (lower create_deck) (u "y") then
           created <- anki_request (u "createDeck")
                        [(u "deck", JStr deck_name)] ;;
           if is_None created then
             print (u "Failed to create deck '" ++ deck_name ++ u "'.") ;;
             ret None
           else
             print (u "Deck '" ++ deck_name ++ u "' created successfully.") ;;
             ret (Some deck_name)
         else
           print (u "Card creation cancelled.") ;;
           ret None
       else ret (Some deck_name))
    (fun e =>
       Some
         (print (u "An error occurred while handling decks: " ++ exc_str e) ;;
          ret None)).

(** Lines 164-165 *)
Definition normalize_tags (line : str) : list str :=
  map strip
    (filter (fun tag => match strip tag with [] => false | _ => true end)
       (split comma line)).

(** Lines 168-180 *)
Definition make_note (deck_name front : str) (back : json) (tags : list str)
  : json :=
  JObj [(u "deckName", JStr deck_name);
        (u "modelName", JStr (u "Basic"));
        (u "fields", JObj [(u "Front", JStr front); (u "Back", back)]);
        (u "options", JObj [(u "allowDuplicate", JBool false);
                            (u "duplicateScope", JStr (u "deck"))]);
        (u "tags", JArr (map JStr tags))].

Definition success_lines (deck_name front : str) (back : json)
  (tags : list str) : list str :=
  [nl ++ u "Successfully added card to '" ++ deck_name ++ u "'!";
   u "  Front: " ++ front;
   u "  Back Content (HTML): " ++ nl ++ py_str back;
   u "  Tags: " ++ join (u ", ") tags].

Definition create_flashcard : M unit :=
  print (u "--- AI-Powered Anki Flashcard Adder ---") ;;
  gemini_api_key <- get_gemini_api_key ;;
  match gemini_api_key with
  | None | Some [] => ret tt
  | Some api_key =>
      decks <- handle_decks ;;
      match decks with
      | None => ret tt
      | Some deck_name =>
          concept <- input concept_prompt ;;
          generated_content_html <- generate_flashcard_content api_key concept ;;
          if negb (truthy generated_content_html) then
            print (u "Could not generate card content. Please try again.") ;;
            ret tt
          else
            let front := concept in
            let back := generated_content_html in
            line <- input tags_prompt ;;
            let tags := normalize_tags line in
            let note := make_note deck_name front back tags in
            try_except
              (result <- anki_request (u "addNote") [(u "note", note)] ;;
               if truthy result then
                 for_each (success_lines deck_name front back tags) print
               else
                 print (nl ++
                        u "Failed to add the card. Check for errors above."))
              (fun e =>
                 Some
                   (print (u "An error occurred while adding the note: "
                           ++ exc_str e)))
      end
  end.

(** ** Running the script *)

Definition start (cs : char -> bool) (env : list (str * str))
  (lines : list str) (replies : list reply) : world :=
  {| environ := env; stdin := lines; charset := cs; net := replies;
     trace := [] |}.

(** The log of one run of the script on a console [cs]. *)
Definition run (cs : char -> bool) (env : list (str * str))
  (lines : list str) (replies : list reply) : list event :=
  trace (snd (create_flashcard (start cs env lines replies))).

Definition result_of {A : Type} (m : M A) (w : world) : outcome A :=
  fst (m w).

Definition log_of {A : Type} (m : M A) (w : world) : list event :=
  trace (snd (m w)).

(** ** What the helpers do with one reply *)

(** The value or exception of the body of [anki_request] (lines 101-105)
    when [urlopen] is answered by [r]. *)
Definition anki_outcome (r : reply) : outcome json :=
  match r with
  | Refuses e => Raises e
  | Responds resp => read_envelope resp
  end.

(** The first line of the handler of lines 106-109. *)
Definition anki_error_line (e : exc) : str :=
  u "Error communicating with AnkiConnect: " ++ exc_str e.

(** What [anki_request] gives on a console [cs]: the value of the body;
    [None] when the body raised and the handler could write its lines; and
    the error of the console when it could not write the first of them. *)
Definition anki_result (cs : char -> bool) (r : reply) : outcome json :=
  match anki_outcome r with
  | Returns v => Returns v
  | Raises e =>
      if encodable cs (anki_error_line e) then Returns JNull
      else Raises (encode_error (anki_error_line e))
  end.

Definition anki_said (cs : char -> bool) (r : reply) : list str :=
  match anki_outcome r with
  | Returns _ => []
  | Raises e =>
      if encodable cs (anki_error_line e) then
        [anki_error_line e;
         u "Please ensure Anki is running and the AnkiConnect add-on is installed and configured correctly."]
      else []
  end.

(** The world after one exchange and the lines printed about it. *)
Definition exchanged (req : request) (lines : list str) (w : world) : world :=
  {| environ := environ w; stdin := stdin w; charset := charset w;
     net := tl (net w);
     trace := trace w ++ Exchanged req (next_reply w) :: map Printed lines |}.

(** The lines of a list that a loop of [print] writes: those before the
    first that the console cannot write, which ends the loop. *)
Fixpoint written (cs : char -> bool) (l : list str) : list str :=
  match l with
  | [] => []
  | s :: l' => if encodable cs s then s :: written cs l' else []
  end.

Fixpoint unwritable (cs : char -> bool) (l : list str) : option str :=
  match l with
  | [] => None
  | s :: l' => if encodable cs s then unwritable cs l' else Some s
  end.

(** ** Reading requests and envelopes *)

Definition field (k : str) (v : json) : option json :=
  match v with
  | JObj kv => assoc k kv
  | _ => None
  end.

Definition element (i : nat) (v : json) : option json :=
  match v with
  | JArr l => nth_error l i
  | _ => None
  end.

Definition andthen {A B : Type} (o : option A) (f : A -> option B)
  : option B :=
  match o with
  | Some a => f a
  | None => None
  end.

(** [candidates[0].content.parts[0].text] of a response envelope, as the
    specification names the path: fields of objects, elements of arrays. *)
Definition first_text (envelope : json) : option json :=
  andthen (field (u "candidates") envelope) (fun c =>
  andthen (element 0 c) (fun c0 =>
  andthen (field (u "content") c0) (fun ct =>
  andthen (field (u "parts") ct) (fun ps =>
  andthen (element 0 ps) (fun p0 =>
  field (u "text") p0))))).

(** The action of a request to the card store. *)
Definition action_of (req : request) : option json :=
  field (u "action") (data req).

(** The note of an [addNote] request and its options. *)
Definition note_of (req : request) : option json :=
  andthen (field (u "params") (data req)) (field (u "note")).

Definition options_of (req : request) : option json :=
  andthen (note_of req) (field (u "options")).

(** An exchange with the card store for [action]. *)
Definition sent (action : str) (ev : event) : bool :=
  match ev with
  | Exchanged req _ =>
      Str.eqb (url req) anki_url
      && match action_of req with
         | Some (JStr a) => Str.eqb a action
         | _ => false
         end
  | _ => false
  end.

(** ** What a run can be said to do *)

(** The user answered the prompt of line 138 with something that does not
    lower to [y]. *)
Definition declined (t : list event) : Prop :=
  exists d a, In (Asked (create_prompt d) (Some a)) t /\ lower a <> u "y".

(** The same, reading the prompt's ['y'] to the letter. *)
Definition declined_to_the_letter (t : list event) : Prop :=
  exists d a, In (Asked (create_prompt d) (Some a)) t /\ a <> u "y".

(** A [createDeck] request got a reply on which [anki_request] gives [None]. *)
Definition creation_failed (cs : char -> bool) (t : list event) : Prop :=
  exists d r,
    In (Exchanged (anki_http_request (u "createDeck") [(u "deck", JStr d)]) r) t
    /\ anki_result cs r = Returns JNull.

Definition no_note (t : list event) : Prop :=
  forall ev, In ev t -> sent (u "addNote") ev = false.

(** The run returned, and the last thing it did was to say that the card
    was given up for want of a deck. *)
Definition aborted (x : outcome unit * world) : Prop :=
  fst x = Returns tt /\
  exists pre line,
    trace (snd x) = pre ++ [Printed line] /\
    (line = u "Card creation cancelled." \/
     exists d, line = u "Failed to create deck '" ++ d ++ u "'.").

(** A line that opens the report of a stored card (line 186). *)
Definition success_report (ev : event) : bool :=
  match ev with
  | Printed line => startswith (nl ++ u "Successfully added card to '") line
  | _ => false
  end.


(* ================================================================== *)
(** * Properties *)
(* ================================================================== *)

(** ** Strings *)

Lemma str_eqb_eq (s t : str) : Str.eqb s t = true <-> s = t.
Proof.
  revert t; induction s as [|a s IH]; intros [|b t]; simpl;
    try (split; (discriminate || reflexivity)).
  rewrite andb_true_iff, N.eqb_eq, IH.
  split; [intros [-> ->]; reflexivity | intros [= -> ->]; auto].
Qed.

Lemma str_eqb_refl (s : str) : Str.eqb s s = true.
Proof. apply str_eqb_eq; reflexivity. Qed.

Lemma str_eqb_neq (s t : str) : Str.eqb s t = false <-> s <> t.
Proof.
  rewrite <- str_eqb_eq. destruct (Str.eqb s t); split; congruence.
Qed.


(** ** Tags *)

Lemma dropwhile_twice (p : char -> bool) (s : str) :
  dropwhile p (dropwhile p s) = dropwhile p s.
Proof.
  induction s as [|c s IH]; simpl; [reflexivity|].
  destruct (p c) eqn:E; [exact IH|]. simpl. rewrite E. reflexivity.
Qed.

Lemma dropwhile_fixed (p : char -> bool) (s : str) :
  match s with [] => True | c :: _ => p c = false end ->
  dropwhile p s = s.
Proof. destruct s as [|c s]; simpl; [reflexivity | intros ->; reflexivity]. Qed.

Lemma dropwhile_head (p : char -> bool) (s : str) :
  match dropwhile p s with [] => True | c :: _ => p c = false end.
Proof.
  induction s as [|c s IH]; simpl; [exact I|].
  destruct (p c) eqn:E; [exact IH | simpl; exact E].
Qed.

Lemma dropwhile_suffix (p : char -> bool) (s : str) :
  exists pre, s = pre ++ dropwhile p s.
Proof.
  induction s as [|c s [pre IH]]; simpl.
  - exists []. reflexivity.
  - destruct (p c).
    + exists (c :: pre). simpl. rewrite <- IH. reflexivity.
    + exists []. reflexivity.
Qed.

(** [rstrip] keeps a prefix. *)
Lemma rstrip_prefix (s : str) : exists suf, s = rstrip s ++ suf.
Proof.
  unfold rstrip.
  destruct (dropwhile_suffix isspace (rev s)) as [pre E].
  exists (rev pre).
  rewrite <- rev_app_distr, <- E, rev_involutive. reflexivity.
Qed.

Lemma strip_twice (s : str) : strip (strip s) = strip s.
Proof.
  unfold strip at 1.
  assert (L : lstrip (strip s) = strip s).
  { apply dropwhile_fixed.
    unfold strip.
    destruct (rstrip_prefix (lstrip s)) as [suf E].
    destruct (rstrip (lstrip s)) as [|c b]; [exact I|].
    pose proof (dropwhile_head isspace s) as H.
    unfold lstrip in E. rewrite E in H. exact H. }
  rewrite L. unfold strip, rstrip.
  rewrite rev_involutive, dropwhile_twice. reflexivity.
Qed.

Lemma dropwhile_in (p : char -> bool) (s : str) (c : char) :
  In c (dropwhile p s) -> In c s.
Proof.
  induction s as [|d s IH]; simpl; [auto|].
  destruct (p d); [auto | simpl; auto].
Qed.

Lemma strip_in (s : str) (c : char) : In c (strip s) -> In c s.
Proof.
  unfold strip, rstrip, lstrip. intros H.
  apply in_rev, dropwhile_in in H. apply in_rev in H.
  apply dropwhile_in in H. exact H.
Qed.

(** No piece of a split holds the separator. *)
Lemma split_pieces (sep : char) (s p : str) :
  In p (split sep s) -> ~ In sep p.
Proof.
  revert p; induction s as [|c s IH]; simpl; intros p H.
  - destruct H as [<-|[]]. auto.
  - destruct (N.eqb_spec c sep) as [->|Hc].
    + destruct H as [<-|H]; [auto | apply IH; exact H].
    + destruct (split sep s) as [|q qs] eqn:E.
      * destruct H as [<-|[]]. simpl. intuition.
      * destruct H as [<-|H].
        -- simpl. intros [?|Hq]; [congruence|].
           apply (IH q); [left; reflexivity | exact Hq].
        -- apply IH. right. exact H.
Qed.

Lemma split_whole (sep : char) (s : str) :
  ~ In sep s -> split sep s = [s].
Proof.
  induction s as [|c s IH]; simpl; intros H; [reflexivity|].
  destruct (N.eqb_spec c sep) as [->|Hc]; [exfalso; auto|].
  rewrite IH by auto. reflexivity.
Qed.

Lemma split_app (sep : char) (s r : str) :
  ~ In sep s -> split sep (s ++ sep :: r) = s :: split sep r.
Proof.
  induction s as [|c s IH]; simpl; intros H.
  - rewrite N.eqb_refl. reflexivity.
  - destruct (N.eqb_spec c sep) as [->|Hc]; [exfalso; auto|].
    rewrite IH by auto. reflexivity.
Qed.

(** Splitting undoes joining when no string holds the separator. *)
Lemma split_join (sep : char) (l : list str) :
  l <> [] -> Forall (fun s => ~ In sep s) l ->
  split sep (join [sep] l) = l.
Proof.
  induction l as [|s l IH]; intros Hne Hall; [congruence|].
  inversion Hall as [|? ? Hs Hl]; subst.
  destruct l as [|s' l].
  - simpl. apply split_whole. exact Hs.
  - change (join [sep] (s :: s' :: l)) with (s ++ sep :: join [sep] (s' :: l)).
    rewrite split_app by exact Hs.
    rewrite IH; [reflexivity | discriminate | exact Hl].
Qed.

(** The tags of a line: stripped, not empty, without a comma. *)
Lemma normalize_tags_spec (line : str) :
  Forall (fun tag => strip tag = tag /\ tag <> [] /\ ~ In comma tag)
         (normalize_tags line).
Proof.
  unfold normalize_tags. rewrite Forall_forall. intros tag H.
  apply in_map_iff in H. destruct H as (piece & <- & H).
  apply filter_In in H. destruct H as [Hin Hne].
  split; [apply strip_twice | split].
  - destruct (strip piece); [discriminate | discriminate].
  - intros Hc. apply strip_in in Hc.
    exact (split_pieces _ _ _ Hin Hc).
Qed.


(** ** The console *)

Lemma encodable_app (cs : char -> bool) (a b : str) :
  encodable cs (a ++ b) = encodable cs a && encodable cs b.
Proof. apply forallb_app. Qed.

(** ASCII text can be written on every console. *)
Lemma ascii_encodable (cs : char -> bool) (s : str) :
  forallb (fun c => (c <? 128)%N) s = true -> encodable cs s = true.
Proof.
  unfold encodable, encodes. rewrite !forallb_forall.
  intros H c Hc. rewrite (H c Hc). reflexivity.
Qed.

Lemma digits_encodable (cs : char -> bool) (d : Decimal.uint) :
  encodable cs (u (NilEmpty.string_of_uint d)) = true.
Proof.
  induction d; cbn [NilEmpty.string_of_uint]; try reflexivity;
    unfold u in *; cbn [list_ascii_of_string map];
    change (encodable cs (?c :: ?s)) with (encodes cs c && encodable cs s);
    rewrite IHd; reflexivity.
Qed.

Lemma decimal_encodable (cs : char -> bool) (n : Z) :
  encodable cs (decimal n) = true.
Proof.
  unfold decimal, NilZero.string_of_int, NilZero.string_of_uint.
  destruct (Z.to_int n) as [d|d]; destruct d; try reflexivity;
    try apply digits_encodable;
    unfold u; cbn [list_ascii_of_string map];
    change (encodable cs (?c :: ?s)) with (encodes cs c && encodable cs s);
    try (rewrite (digits_encodable cs (_ d)); reflexivity).
Qed.

(** A console that has every character writes every text. *)
Lemma whole_console (cs : char -> bool) (s : str) :
  (forall c, cs c = true) -> encodable cs s = true.
Proof.
  intros H. unfold encodable, encodes. apply forallb_forall.
  intros c _. rewrite H. apply orb_true_r.
Qed.

Lemma announcement_encodable (cs : char -> bool) (concept : str) :
  encodable cs (announcement concept) = encodable cs concept.
Proof.
  unfold announcement. rewrite !encodable_app.
  rewrite (ascii_encodable cs nl eq_refl).
  rewrite (ascii_encodable cs (u "Generating definition and example for '")
             eq_refl).
  rewrite (ascii_encodable cs (u "' using Gemini...") eq_refl).
  rewrite andb_true_r. reflexivity.
Qed.

Lemma written_in (cs : char -> bool) (l : list str) (s : str) :
  In s (written cs l) -> In s l /\ encodable cs s = true.
Proof.
  induction l as [|x l IH]; simpl; [intros []|].
  destruct (encodable cs x) eqn:E; [|intros []].
  intros [<-|H]; [auto|]. destruct (IH H). auto.
Qed.

(** The literals of the script are ASCII. *)
Ltac literals :=
  repeat match goal with
    | |- context [encodable ?cs ?s] =>
        rewrite (ascii_encodable cs s eq_refl)
    end.

(** What is known of the console settles whether a text can be written:
    the text is split at its joints, the literals of the script are ASCII,
    and the rest is looked up. *)
Ltac writable :=
  unfold create_prompt;
  rewrite ?announcement_encodable;
  repeat rewrite encodable_app;
  rewrite ?decimal_encodable;
  repeat match goal with
    | H : encodable ?cs ?s = true |- context [encodable ?cs ?s] => rewrite H
    end;
  literals;
  reflexivity.

(** The parts of a text that was written can be written. *)
Ltac parts E :=
  unfold create_prompt in E;
  rewrite ?announcement_encodable in E;
  repeat rewrite encodable_app in E;
  repeat match type of E with
    | _ && _ = true =>
        let E1 := fresh "E" in
        apply andb_prop in E; destruct E as [E1 E]
    end.

(** ** The helpers, one reply at a time *)

Lemma for_each_print (A : Type) (f : A -> str) (l : list A) (w : world) :
  for_each l (fun x => print (f x)) w =
  (match unwritable (charset w) (map f l) with
   | None => Returns tt
   | Some s => Raises (encode_error s)
   end,
   {| environ := environ w; stdin := stdin w; charset := charset w;
      net := net w;
      trace := trace w ++ map Printed (written (charset w) (map f l)) |}).
Proof.
  revert w; induction l as [|x l IH]; intros w; simpl.
  - unfold ret. rewrite app_nil_r. destruct w; reflexivity.
  - unfold bind, print.
    destruct (encodable (charset w) (f x)) eqn:E.
    + rewrite IH. simpl. rewrite <- app_assoc. reflexivity.
    + simpl. rewrite app_nil_r. destruct w; reflexivity.
Qed.

Lemma for_each_line (l : list str) (w : world) :
  for_each l print w =
  (match unwritable (charset w) l with
   | None => Returns tt
   | Some s => Raises (encode_error s)
   end,
   {| environ := environ w; stdin := stdin w; charset := charset w;
      net := net w;
      trace := trace w ++ map Printed (written (charset w) l) |}).
Proof.
  pose proof (for_each_print (fun x => x) l w) as H.
  rewrite map_id in H. exact H.
Qed.

(** [anki_request] makes one exchange, and its handler writes two lines
    or fails at the first. *)
Lemma anki_request_run (action : str) (params : list (str * json)) (w : world) :
  anki_request action params w =
  (anki_result (charset w) (next_reply w),
   exchanged (anki_http_request action params)
     (anki_said (charset w) (next_reply w)) w).
Proof.
  unfold anki_request, try_except, bind, urlopen, exchanged, anki_result,
    anki_said, anki_outcome, lift, print, ret, log.
  cbn [environ stdin charset net trace].
  assert (L : encodable (charset w)
                (u "Please ensure Anki is running and the AnkiConnect add-on is installed and configured correctly.")
              = true) by writable.
  destruct (next_reply w) as [e|resp];
    cbn [fst snd environ stdin charset net trace].
  - destruct (encodable (charset w) (anki_error_line e)) eqn:E;
      unfold anki_error_line in E |- *; rewrite E;
      cbn [fst snd environ stdin charset net trace]; [rewrite L|];
      rewrite <- ?app_assoc; reflexivity.
  - destruct (read_envelope resp) as [v|e];
      cbn [fst snd environ stdin charset net trace]; [reflexivity|].
    destruct (encodable (charset w) (anki_error_line e)) eqn:E;
      unfold anki_error_line in E |- *; rewrite E;
      cbn [fst snd environ stdin charset net trace]; [rewrite L|];
      rewrite <- ?app_assoc; reflexivity.
Qed.

(** An envelope with a truthy [error] that the console can write makes
    the helper return [None]. *)
Lemma error_envelope_gives_None (cs : char -> bool) (r : reply)
  (resp : response) (kv : list (str * json)) (err : json) :
  r = Responds resp ->
  json_load (content resp) = Returns (JObj kv) ->
  assoc (u "error") kv = Some err ->
  truthy err = true ->
  encodable cs (py_str err) = true ->
  anki_result cs r = Returns JNull.
Proof.
  intros -> Hj He Ht Hw.
  unfold anki_result, anki_outcome, read_envelope.
  assert (W : encodable cs (anki_error_line (PlainException err)) = true)
    by (unfold anki_error_line, exc_str; writable).
  rewrite Hj. cbn [obind py_get py_item]. rewrite He, Ht.
  cbn [obind py_item]. rewrite ?He. cbn [obind]. rewrite W. reflexivity.
Qed.

Lemma first_reply_cons (r : reply) (rest : list reply) :
  first_reply (r :: rest) = r.
Proof. reflexivity. Qed.

Lemma anki_result_of (cs : char -> bool) (r : reply) (v : json) :
  anki_outcome r = Returns v ->
  anki_result cs r = Returns v /\ anki_said cs r = [].
Proof. unfold anki_result, anki_said. intros ->. split; reflexivity. Qed.

(** [anki_request] gives [None] only after it read no result or wrote
    its two lines. *)
Lemma anki_said_plain (cs : char -> bool) (r : reply) :
  Forall (fun line => startswith nl line = false) (anki_said cs r).
Proof.
  unfold anki_said. destruct (anki_outcome r) as [v|e].
  - constructor.
  - destruct (encodable cs (anki_error_line e)); repeat constructor.
Qed.

Lemma plain_line_is_no_report (said : list str) (line : str) :
  Forall (fun line => startswith nl line = false) said ->
  In line said -> success_report (Printed line) = false.
Proof.
  intros Hall Hin. rewrite Forall_forall in Hall. specialize (Hall _ Hin).
  destruct line as [|c line]; [reflexivity|].
  cbn in Hall |- *. rewrite andb_true_r in Hall. rewrite Hall. reflexivity.
Qed.

(** When the console cannot write the announcement of line 32, which is
    outside the [try], the generator raises before it calls the service. *)
Lemma generate_unannounced (api_key concept : str) (w : world) :
  encodable (charset w) concept = false ->
  generate_flashcard_content api_key concept w =
  (Raises (encode_error (announcement concept)), w).
Proof.
  intros E. unfold generate_flashcard_content, bind, print.
  rewrite announcement_encodable, E. reflexivity.
Qed.

(** When it can, [generate_flashcard_content] writes the announcement,
    makes one exchange and writes at most one line more, which does not
    open with a newline. *)
Lemma generate_run (api_key concept : str) (w : world) :
  encodable (charset w) concept = true ->
  exists (o : outcome json) (said : list str),
    generate_flashcard_content api_key concept w =
    (o,
     exchanged (gemini_request api_key concept) said
       (log (Printed (announcement concept)) w))
    /\ Forall (fun line => startswith nl line = false) said.
Proof.
  intros Ha.
  unfold generate_flashcard_content, try_except, bind, urlopen, exchanged,
    lift, print, ret, log.
  rewrite announcement_encodable, Ha.
  cbn [environ stdin charset net trace fst snd].
  change (next_reply {| environ := environ w; stdin := stdin w;
                        charset := charset w; net := net w;
                        trace := _ |}) with (next_reply w).
  unfold py_decode, error.
  destruct (next_reply w) as [e|resp]; cbn;
    repeat match goal with
      | |- context [match ?x with _ => _ end] =>
          lazymatch x with
          | encodable _ _ => destruct x; cbn
          | context [_ ++ _] => fail
          | _ => destruct x; cbn
          end
      end;
    first [ eexists _, []; split;
            [cbn; rewrite <- ?app_assoc; reflexivity | constructor]
          | eexists _, [_]; split;
            [cbn; rewrite <- ?app_assoc; reflexivity
            | constructor; [reflexivity | constructor]] ].
Qed.
(** ** The envelope of the generator *)

Lemma assoc_some_cons (A : Type) (k : str) (kv : list (str * A)) (v : A) :
  assoc k kv = Some v -> exists p kv', kv = p :: kv'.
Proof. destruct kv as [|p kv']; [discriminate | eauto]. Qed.

(** When the path of the specification exists, the test of lines 70-73
    holds and line 74 reads the same value. *)
Lemma first_text_found (envelope t : json) :
  first_text envelope = Some t ->
  has_text_part envelope = Returns true /\ text_of envelope = Returns t.
Proof.
  unfold first_text, has_text_part, text_of, andthen, field, element.
  destruct envelope as [| | | | | |kv]; try discriminate.
  destruct (assoc (u "candidates") kv) as [c|] eqn:Ec; [|discriminate].
  destruct c as [| | | | |[|c0 cs]|]; try discriminate.
  cbn [nth_error].
  destruct c0 as [| | | | | |kv0]; try discriminate.
  destruct (assoc (u "content") kv0) as [ct|] eqn:Ect; [|discriminate].
  destruct ct as [| | | | | |kvc]; try discriminate.
  destruct (assoc (u "parts") kvc) as [ps|] eqn:Eps; [|discriminate].
  destruct ps as [| | | | |[|p0 ps]|]; try discriminate.
  cbn [nth_error].
  destruct p0 as [| | | | | |kvp]; try discriminate.
  intros Et.
  destruct (assoc_some_cons _ _ Eps) as (p & kvc' & ->).
  cbn [py_get py_item py_index py_len obind and_then nth_error truthy
       List.length Nat.ltb Nat.leb].
  rewrite Ec. cbn [obind and_then py_index py_get py_item py_len nth_error
                   truthy List.length Nat.ltb Nat.leb].
  rewrite Ect. cbn [obind and_then py_index py_get py_item py_len nth_error
                    truthy List.length Nat.ltb Nat.leb].
  rewrite Eps. cbn [obind and_then py_index py_get py_item py_len nth_error
                    truthy List.length Nat.ltb Nat.leb].
  rewrite Et. split; reflexivity.
Qed.

(** Conversely line 74 reads nothing but that path. *)
Lemma text_of_is_first_text (envelope t : json) :
  text_of envelope = Returns t -> first_text envelope = Some t.
Proof.
  unfold first_text, text_of, andthen, field, element, py_item, py_index,
    error, obind.
  repeat match goal with
    | |- context [match ?x with _ => _ end] =>
        lazymatch x with
        | context [match _ with _ => _ end] => fail
        | _ => destruct x; cbn [nth_error]; try discriminate
        end
    end.
  intros [= ->]. reflexivity.
Qed.

(** Reading a value raises nothing but the interpreter's own errors. *)
Lemma reading_raises_std (envelope : json) (e : exc) :
  text_of envelope = Raises e \/ has_text_part envelope = Raises e ->
  exists cls text, e = StdError cls text.
Proof.
  unfold text_of, has_text_part, and_then, py_get, py_item, py_index, py_len,
    error, obind.
  intros [H|H]; revert H;
    repeat match goal with
      | |- context [match ?x with _ => _ end] =>
          lazymatch x with
          | context [match _ with _ => _ end] => fail
          | _ => destruct x; cbn [nth_error]
          end
      end;
    intros H; try discriminate H; injection H as <-; eauto.
Qed.

(** The whole step of the generator on such an envelope. *)
Lemma generate_on_text (api_key concept : str) (w : world) (resp : response)
  (body : str) (envelope t : json) :
  encodable (charset w) concept = true ->
  next_reply w = Responds resp ->
  status resp = 200%Z ->
  decode (content resp) = Some body ->
  json_loads body = Returns envelope ->
  first_text envelope = Some t ->
  generate_flashcard_content api_key concept w =
  (Returns t,
   exchanged (gemini_request api_key concept) []
     (log (Printed (announcement concept)) w)).
Proof.
  intros Ha Hr Hs Hd Hj Ht.
  destruct (first_text_found _ Ht) as [Hp Hx].
  unfold generate_flashcard_content, try_except, bind, urlopen, exchanged,
    lift, print, ret, log, py_decode.
  rewrite announcement_encodable, Ha.
  cbn [environ stdin charset net trace fst snd].
  change (next_reply {| environ := environ w; stdin := stdin w;
                        charset := charset w; net := net w;
                        trace := _ |}) with (next_reply w).
  rewrite Hr. cbn. rewrite Hd, Hs. cbn. rewrite Hj. cbn. rewrite Hp. cbn.
  rewrite Hx. reflexivity.
Qed.

(** The handler of lines 86-89 decodes the body of an [HTTPError] outside
    any [try]: when the body is not UTF-8 the error of the decoding leaves
    the generator. *)
Lemma generate_on_undecodable_error_body (api_key concept : str) (w : world)
  (code : Z) (rsn : str) (body : bytes) :
  encodable (charset w) concept = true ->
  next_reply w = Refuses (HTTPError code rsn body) ->
  decode body = None ->
  generate_flashcard_content api_key concept w =
  (Raises (StdError UnicodeDecodeError (error_text UnicodeDecodeError JNull)),
   exchanged (gemini_request api_key concept) []
     (log (Printed (announcement concept)) w)).
Proof.
  intros Ha Hr Hd.
  unfold generate_flashcard_content, try_except, bind, urlopen, exchanged,
    lift, print, ret, log, py_decode, error.
  rewrite announcement_encodable, Ha.
  cbn [environ stdin charset net trace fst snd].
  change (next_reply {| environ := environ w; stdin := stdin w;
                        charset := charset w; net := net w;
                        trace := _ |}) with (next_reply w).
  rewrite Hr. cbn. rewrite Hd. reflexivity.
Qed.

(** In every other case of a failure the generator returns [None], on a
    console that can write what it has to say: when [urlopen] raises
    anything but an [HTTPError] with an undecodable body, when the status
    is not 200, when the body is not JSON, and when the path to the text is
    not there. *)
Lemma generator_yields_None_otherwise (api_key concept : str) (w : world) :
  (forall c, charset w c = true) ->
  (forall e,
     next_reply w = Refuses e ->
     (forall code rsn body,
        e = HTTPError code rsn body -> decode body <> None) ->
     result_of (generate_flashcard_content api_key concept) w = Returns JNull)
  /\ (forall resp,
        next_reply w = Responds resp -> status resp <> 200%Z ->
        decode (content resp) <> None ->
        result_of (generate_flashcard_content api_key concept) w
        = Returns JNull)
  /\ (forall resp body text,
        next_reply w = Responds resp -> status resp = 200%Z ->
        decode (content resp) = Some body ->
        json_loads body = Raises (JSONDecodeError text) ->
        result_of (generate_flashcard_content api_key concept) w
        = Returns JNull)
  /\ (forall resp body envelope,
        next_reply w = Responds resp -> status resp = 200%Z ->
        decode (content resp) = Some body ->
        json_loads body = Returns envelope ->
        first_text envelope = None ->
        result_of (generate_flashcard_content api_key concept) w
        = Returns JNull).
Proof.
  intros Hcs.
  assert (W : forall s, encodable (charset w) s = true)
    by (intros s; apply whole_console; exact Hcs).
  unfold result_of, generate_flashcard_content, try_except, bind, urlopen,
    lift, print, ret, log, py_decode, error.
  rewrite W.
  cbn [environ stdin charset net trace fst snd].
  change (next_reply {| environ := environ w; stdin := stdin w;
                        charset := charset w; net := net w;
                        trace := _ |}) with (next_reply w).
  repeat split.
  - intros e -> Hd. destruct e as [code rsn body| | |]; cbn; rewrite ?W;
      try reflexivity.
    specialize (Hd _ _ _ eq_refl).
    destruct (decode body); cbn; rewrite ?W; [reflexivity | congruence].
  - intros resp -> Hs Hd. apply Z.eqb_neq in Hs. cbn.
    destruct (decode (content resp)); cbn; [rewrite Hs|congruence]; cbn;
      rewrite W; reflexivity.
  - intros resp body text -> Hs Hd Hj. apply Z.eqb_eq in Hs. cbn.
    rewrite Hd, Hs. cbn. rewrite Hj. cbn. rewrite W. reflexivity.
  - intros resp body envelope -> Hs Hd Hj Hn. apply Z.eqb_eq in Hs. cbn.
    rewrite Hd, Hs. cbn. rewrite Hj. cbn.
    destruct (has_text_part envelope) as [[|]|e] eqn:Hp; cbn.
    + destruct (text_of envelope) as [t|e] eqn:Ht; cbn.
      * apply text_of_is_first_text in Ht. congruence.
      * destruct (reading_raises_std envelope (or_introl Ht))
          as (cls & text & ->).
        cbn. rewrite W. reflexivity.
    + rewrite W. reflexivity.
    + destruct (reading_raises_std envelope (or_intror Hp))
        as (cls & text & ->).
      cbn. rewrite W. reflexivity.
Qed.

(** [get_gemini_api_key] gives [None], after five printed lines, when the
    variable is not set or is empty. *)
Lemma no_key_no_generation (w : world) :
  assoc (u "GEMINI_API_KEY") (environ w) = None
  \/ assoc (u "GEMINI_API_KEY") (environ w) = Some [] ->
  result_of get_gemini_api_key w = Returns None
  /\ log_of create_flashcard w =
     trace w ++ map Printed
       [u "--- AI-Powered Anki Flashcard Adder ---";
        u "---";
        u "ERROR: GEMINI_API_KEY environment variable not set.";
        u "Please set the environment variable with your Gemini API key.";
        u "You can get a key from Google AI Studio.";
        u "---"].
Proof.
  intros H.
  unfold result_of, log_of, create_flashcard, get_gemini_api_key, bind,
    environ_get, print, ret, log.
  cbn [environ stdin charset net trace].
  rewrite (ascii_encodable (charset w)
             (u "--- AI-Powered Anki Flashcard Adder ---") eq_refl).
  cbn.
  destruct H as [-> | ->];
    repeat (cbn;
            match goal with
            | |- context [encodable ?cs (u ?s)] =>
                rewrite (ascii_encodable cs (u s) eq_refl)
            end);
    cbn; rewrite <- !app_assoc; split; reflexivity.
Qed.


(** ** The contract of [anki_request] where it is kept *)

(** [anki_request] makes one exchange, with the loopback endpoint and the
    envelope [{action, version: 6, params}], and apart from it only
    prints.  When the reply is an envelope with a truthy [error] that the
    console can write, the body of the helper raises [Exception(error)],
    the handler prints its two lines and the helper returns [None].  When
    the reply is an envelope without one, the helper returns its [result]
    field as it is ([None] when there is none) and prints nothing. *)
Lemma anki_request_contract (action : str) (params : list (str * json))
  (w : world) :
  let request :=
    {| url := u "http://localhost:8765";
       data := JObj [(u "action", JStr action);
                     (u "version", JInt 6);
                     (u "params", JObj params)];
       headers := [] |} in
  (exists said,
     log_of (anki_request action params) w =
     trace w ++ Exchanged request (next_reply w) :: map Printed said)
  /\ (forall resp kv err,
        next_reply w = Responds resp ->
        json_load (content resp) = Returns (JObj kv) ->
        assoc (u "error") kv = Some err ->
        truthy err = true ->
        encodable (charset w) (py_str err) = true ->
        read_envelope resp = Raises (PlainException err)
        /\ result_of (anki_request action params) w = Returns JNull
        /\ log_of (anki_request action params) w =
           trace w ++
           [Exchanged request (Responds resp);
            Printed (u "Error communicating with AnkiConnect: " ++ py_str err);
            Printed (u "Please ensure Anki is running and the AnkiConnect add-on is installed and configured correctly.")])
  /\ (forall resp kv,
        next_reply w = Responds resp ->
        json_load (content resp) = Returns (JObj kv) ->
        (forall err, assoc (u "error") kv = Some err -> truthy err = false) ->
        result_of (anki_request action params) w =
          Returns (match assoc (u "result") kv with
                   | Some v => v
                   | None => JNull
                   end)
        /\ log_of (anki_request action params) w =
           trace w ++ [Exchanged request (Responds resp)]).
Proof.
  intros request. unfold result_of, log_of.
  rewrite anki_request_run. unfold exchanged. cbn [fst snd trace].
  split; [eexists; reflexivity|].
  split.
  - intros resp kv err Hr Hj He Ht Hw.
    assert (R : read_envelope resp = Raises (PlainException err)).
    { unfold read_envelope. rewrite Hj. cbn. rewrite He, Ht. reflexivity. }
    assert (W : encodable (charset w) (anki_error_line (PlainException err))
                = true)
      by (unfold anki_error_line, exc_str; writable).
    unfold anki_result, anki_said. rewrite Hr. cbn [anki_outcome].
    rewrite R, W. repeat split.
  - intros resp kv Hr Hj He.
    assert (R : read_envelope resp =
                Returns (match assoc (u "result") kv with
                         | Some v => v
                         | None => JNull
                         end)).
    { unfold read_envelope. rewrite Hj. cbn.
      destruct (assoc (u "error") kv) as [err|] eqn:E.
      - rewrite (He err eq_refl). reflexivity.
      - reflexivity. }
    unfold anki_result, anki_said. rewrite Hr. cbn [anki_outcome].
    rewrite R. split; reflexivity.
Qed.

(** ** Running the script symbolically *)

Arguments anki_request : simpl never.
Arguments generate_flashcard_content : simpl never.
Arguments first_reply : simpl never.
Arguments anki_result : simpl never.
Arguments anki_said : simpl never.
Arguments normalize_tags : simpl never.
Arguments Str.eqb : simpl nomatch.
Arguments lower : simpl never.
Arguments print : simpl never.
Arguments for_each : simpl never.
Arguments announcement : simpl never.

Lemma print_run (line : str) (w : world) :
  print line w =
  if encodable (charset w) line then (Returns tt, log (Printed line) w)
  else (Raises (encode_error line), w).
Proof. reflexivity. Qed.

(** The term whose value decides which way the run goes next. *)
Ltac head_scrutinee X :=
  lazymatch X with
  | match ?Y with _ => _ end => head_scrutinee Y
  | (match ?Y with _ => _ end) _ => head_scrutinee Y
  | _ => X
  end.

(** The goal is kept as [P X], [X] the run so far; only [X] is reduced. *)
Ltac reduce_run :=
  lazymatch goal with
  | |- ?P ?X =>
      let X1 := eval cbn in X in
      let X2 := eval unfold log, exchanged, next_reply in X1 in
      let X3 := eval cbn in X2 in
      change (P X3)
  end.

(** Whether a text can be written: by what is known, or either way. *)
Ltac either_way s :=
  first [ match goal with H : s = _ |- _ => rewrite H end
        | let W := fresh "W" in
          assert (W : s = true) by writable; rewrite W; clear W
        | let E := fresh "E" in destruct s eqn:E; [parts E | ] ].

(** One step of the run.  [on_generate] says what the call of the
    generator gives, [otherwise] settles any other scrutinee. *)
Ltac run_step_with on_generate otherwise :=
  lazymatch goal with
  | |- ?P ?X =>
      let s := head_scrutinee X in
      lazymatch s with
      | (_, _) => fail "the run is over"
      | anki_request ?a ?p ?w => rewrite (anki_request_run a p w)
      | generate_flashcard_content ?k ?c ?w => on_generate k c w
      | for_each ?l (fun x => print (@?f x)) ?w =>
          rewrite (for_each_print f l w)
      | for_each ?l print ?w => rewrite (for_each_line l w)
      | print ?s ?w => rewrite (print_run s w)
      | encodable _ _ => either_way s
      | _ => otherwise s
      end
  end;
  reduce_run.

(** For every world: the generator raises before the call when it cannot
    announce it, and gives some outcome after the call. *)
Ltac any_generation k c w :=
  let cs := eval cbn in (charset w) in
  let o := fresh "o" in
  let ls := fresh "said" in
  let E := fresh "E" in
  let F := fresh "plain" in
  let Ea := fresh "Ea" in
  first
    [ match goal with
      | H : encodable cs c = true |- _ =>
          destruct (generate_run k c w H) as (o & ls & E & F);
          rewrite E; clear E
      | H : encodable cs c = false |- _ =>
          rewrite (generate_unannounced k c w H)
      end
    | destruct (encodable cs c) eqn:Ea;
      [ destruct (generate_run k c w Ea) as (o & ls & E & F);
        rewrite E; clear E
      | rewrite (generate_unannounced k c w Ea) ] ].

Ltac by_cases s :=
  first [ match goal with H : s = _ |- _ => rewrite H end
        | destruct s eqn:? ].

Ltac run_step := run_step_with any_generation by_cases.

(** For one world: what is not given by a hypothesis is computed. *)
Ltac by_computing s :=
  first [ match goal with H : s = _ |- _ => rewrite H end
        | let v := eval vm_compute in s in
          lazymatch v with
          | s => fail "stuck"
          | _ => change s with v
          end ].

Ltac unfold_script :=
  unfold run, result_of, log_of;
  lazymatch goal with
  | |- context [create_flashcard ?w] => pattern (create_flashcard w)
  end;
  lazymatch goal with
  | |- ?P ?X =>
      let X1 := eval unfold create_flashcard, get_gemini_api_key,
                  handle_decks, choose_deck, read_local, start in X in
      let X2 := eval unfold bind, try_except, environ_get, lift, ret, input
                  in X1 in
      let Q := fresh "property" in
      set (Q := P); change (Q X2)
  end;
  reduce_run.

Ltac fold_script :=
  lazymatch goal with
  | Q := _ |- _ => subst Q
  end;
  cbv beta; cbn [fst snd trace].

Ltac run_script := unfold_script; repeat run_step; fold_script.

(** Which event of an explicit log a hypothesis [In ev log] speaks of. *)
Ltac split_in H :=
  lazymatch type of H with
  | In _ (_ ++ _) => apply in_app_or in H; destruct H as [H|H]; split_in H
  | In _ (map Printed (written _ _)) =>
      let x := fresh "x" in
      let Hx := fresh "Hx" in
      apply in_map_iff in H; destruct H as (x & H & Hx);
      apply written_in in Hx; destruct Hx as [Hx _]; split_in Hx;
      try subst x
  | In _ (map _ _) =>
      let x := fresh "x" in
      let Hx := fresh "Hx" in
      apply in_map_iff in H; destruct H as (x & H & Hx)
  | In _ (_ :: _) => destruct H as [H|H]; [ | split_in H]
  | In _ [] => destruct H
  | _ => idtac
  end.

(** Two events that differ in a prompt or a request. *)
Ltac other_event H :=
  exfalso;
  first [ discriminate H
        | let E := fresh "E" in
          injection H as E _; vm_compute in E; discriminate E ].

Ltac ends_with_line :=
  repeat rewrite app_comm_cons;
  eexists _, _; split; [reflexivity | ].

Ltac in_log :=
  first [ left; reflexivity
        | right; in_log
        | apply in_or_app; first [ right; in_log | left; in_log ] ].

Ltac no_report :=
  first [ reflexivity
        | eapply plain_line_is_no_report; [ | eassumption];
          first [ assumption | apply anki_said_plain ] ].


(* ================================================================== *)
(** * The claims *)
(* ================================================================== *)

(** C1: the end-to-end scenario, on any console.  The key is set, the
    store lists the one deck Default, the user takes the favourite deck and
    agrees to create it, the store creates it, the concept is ubiquitous,
    the generator's envelope holds the HTML, the tags line is [vocab, gre]
    and the store accepts the note.  The log of the run is then exactly
    this one: the note goes out with the deck, the model Basic, the concept
    and the HTML as they were given, the two tags, and besides them the
    options of lines 175-178, which the script adds to every note; the four
    lines of the report follow. *)
Theorem end_to_end_scenario (cs : char -> bool) (env : list (str * str))
  (api_key : str) (r1 r2 r4 : reply) (resp : response) (body : str)
  (envelope created note_id : json) :
  assoc (u "GEMINI_API_KEY") env = Some api_key ->
  api_key <> [] ->
  anki_outcome r1 = Returns (JArr [JStr (u "Default")]) ->
  anki_outcome r2 = Returns created ->
  is_None created = false ->
  status resp = 200%Z ->
  decode (content resp) = Some body ->
  json_loads body = Returns envelope ->
  first_text envelope = Some (JStr (u "<p>Def</p><i>Example</i>")) ->
  anki_outcome r4 = Returns note_id ->
  truthy note_id = true ->
  run cs env [u "y"; u "y"; u "ubiquitous"; u "vocab, gre"]
      [r1; r2; Responds resp; r4] =
  [ Printed (u "--- AI-Powered Anki Flashcard Adder ---");
    Exchanged (anki_http_request (u "deckNames") []) r1;
    Printed (nl ++ u "Available Decks:");
    Printed (u "- Default");
    Asked (nl ++ u "AI_Adder?") (Some (u "y"));
    Asked (u "Deck 'AI_Adder' does not exist. Create it? (y/n): ")
          (Some (u "y"));
    Exchanged (anki_http_request (u "createDeck")
                 [(u "deck", JStr (u "AI_Adder"))]) r2;
    Printed (u "Deck 'AI_Adder' created successfully.");
    Asked (nl ++ u "Enter the word or concept for the flashcard: ")
          (Some (u "ubiquitous"));
    Printed (nl ++ u "Generating definition and example for 'ubiquitous' using Gemini...");
    Exchanged (gemini_request api_key (u "ubiquitous")) (Responds resp);
    Asked (u "Enter tags for the card (comma-separated, optional): ")
          (Some (u "vocab, gre"));
    Exchanged
      {| url := u "http://localhost:8765";
         data :=
           JObj [(u "action", JStr (u "addNote"));
                 (u "version", JInt 6);
                 (u "params",
                  JObj [(u "note",
                         JObj [(u "deckName", JStr (u "AI_Adder"));
                               (u "modelName", JStr (u "Basic"));
                               (u "fields",
                                JObj [(u "Front", JStr (u "ubiquitous"));
                                      (u "Back",
                                       JStr (u "<p>Def</p><i>Example</i>"))]);
                               (u "options",
                                JObj [(u "allowDuplicate", JBool false);
                                      (u "duplicateScope", JStr (u "deck"))]);
                               (u "tags",
                                JArr [JStr (u "vocab"); JStr (u "gre")])])])];
         headers := [] |} r4;
    Printed (nl ++ u "Successfully added card to 'AI_Adder'!");
    Printed (u "  Front: ubiquitous");
    Printed (u "  Back Content (HTML): " ++ nl ++ u "<p>Def</p><i>Example</i>");
    Printed (u "  Tags: vocab, gre") ].
Proof.
  intros Hkey Hne H1 H2 Hc Hs Hd Hj Ht H4 Hn.
  destruct (anki_result_of cs _ H1) as [V1 P1].
  destruct (anki_result_of cs _ H2) as [V2 P2].
  destruct (anki_result_of cs _ H4) as [V4 P4].
  destruct api_key as [|c key]; [congruence|].
  unfold_script.
  repeat (run_step_with
            ltac:(fun k c w =>
                    rewrite (generate_on_text k c w (resp := resp)
                               (ascii_encodable cs (u "ubiquitous") eq_refl)
                               eq_refl Hs Hd Hj Ht))
            by_computing;
          rewrite ?first_reply_cons, ?V1, ?P1, ?V2, ?P2, ?V4, ?P4;
          reduce_run).
  fold_script. reflexivity.
Qed.

(** C2: on a 200 response whose body decodes to an envelope with a first
    candidate, a content and a first part, [generate_flashcard_content]
    returns the value at [candidates[0].content.parts[0].text] as it
    stands: the string of the envelope when it is one, with nothing
    changed.  The call is made after the announcement of line 32, so the
    console is one that can write the concept. *)
Theorem generate_returns_first_text (api_key concept : str) (w : world)
  (resp : response) (body : str) (envelope t : json) :
  encodable (charset w) concept = true ->
  next_reply w = Responds resp ->
  status resp = 200%Z ->
  decode (content resp) = Some body ->
  json_loads body = Returns envelope ->
  first_text envelope = Some t ->
  result_of (generate_flashcard_content api_key concept) w = Returns t.
Proof.
  intros Ha Hr Hs Hd Hj Ht. unfold result_of.
  rewrite (generate_on_text api_key concept w Ha Hr Hs Hd Hj Ht). reflexivity.
Qed.

(** C3, where the script fails it: the service answers with an error
    status, which [urlopen] raises as an [HTTPError], and the body is not
    UTF-8.  The generator, which announced the call and made it, then does
    not return [None]: it raises [UnicodeDecodeError]. *)
Theorem generator_raises_on_undecodable_error_body (api_key concept : str)
  (w : world) (code : Z) (rsn : str) (body : bytes) :
  encodable (charset w) concept = true ->
  next_reply w = Refuses (HTTPError code rsn body) ->
  decode body = None ->
  result_of (generate_flashcard_content api_key concept) w
  = Raises (StdError UnicodeDecodeError (error_text UnicodeDecodeError JNull))
  /\ result_of (generate_flashcard_content api_key concept) w
     <> Returns JNull.
Proof.
  intros Ha Hr Hd. unfold result_of.
  rewrite (generate_on_undecodable_error_body api_key concept w Ha Hr Hd).
  split; [reflexivity | discriminate].
Qed.

(** C4, where the script fails it: the reply is an envelope with a truthy
    [error] whose text has a character that the console cannot write.  The
    body of [anki_request] raises [Exception(error)] and the handler of
    lines 106-109 takes it, but its first [print] raises
    [UnicodeEncodeError] inside the handler: the helper does not return
    [None], the exception leaves it, and nothing is printed. *)
Theorem anki_request_raises_on_unwritable_error (action : str)
  (params : list (str * json)) (w : world) (resp : response)
  (kv : list (str * json)) (err : json) :
  next_reply w = Responds resp ->
  json_load (content resp) = Returns (JObj kv) ->
  assoc (u "error") kv = Some err ->
  truthy err = true ->
  encodable (charset w) (py_str err) = false ->
  read_envelope resp = Raises (PlainException err)
  /\ result_of (anki_request action params) w
     = Raises (StdError UnicodeEncodeError
                 (error_text UnicodeEncodeError
                    (JStr (u "Error communicating with AnkiConnect: "
                           ++ py_str err))))
  /\ result_of (anki_request action params) w <> Returns JNull
  /\ log_of (anki_request action params) w =
     trace w ++
     [Exchanged
        {| url := u "http://localhost:8765";
           data := JObj [(u "action", JStr action);
                         (u "version", JInt 6);
                         (u "params", JObj params)];
           headers := [] |}
        (Responds resp)].
Proof.
  intros Hr Hj He Ht Hw.
  assert (R : read_envelope resp = Raises (PlainException err)).
  { unfold read_envelope. rewrite Hj. cbn. rewrite He, Ht. reflexivity. }
  assert (W : encodable (charset w) (anki_error_line (PlainException err))
              = false).
  { unfold anki_error_line, exc_str. rewrite encodable_app, Hw.
    apply andb_false_r. }
  unfold result_of, log_of. rewrite anki_request_run.
  unfold exchanged, anki_result, anki_said. cbn [fst snd trace].
  rewrite Hr. cbn [anki_outcome]. rewrite R, W.
  repeat split. discriminate.
Qed.

(** C5, as the script has it: the answer to the prompt of line 138 is
    lowered before it is compared, so [y] and [Y] both accept.  In every
    run where the user is asked to create the deck and answers anything
    that does not lower to [y], or where [anki_request] gives [None] for
    the reply to the [createDeck] request, the run returns right after
    saying so and no [addNote] request is in its log. *)
Theorem no_note_without_a_deck (cs : char -> bool) (env : list (str * str))
  (lines : list str) (replies : list reply) :
  declined (run cs env lines replies)
  \/ creation_failed cs (run cs env lines replies) ->
  aborted (create_flashcard (start cs env lines replies))
  /\ no_note (run cs env lines replies).
Proof.
  run_script.
  all: intros Hyp.
  all: try solve
    [ exfalso;
      destruct Hyp as [(dk & ans & Hin & Hyp)|(dk & rr & Hin & Hyp)];
      split_in Hin; try solve [other_event Hin];
      injection Hin as _ <-;
      match goal with
      | H : Str.eqb (lower _) _ = true |- _ =>
          apply str_eqb_eq in H; contradiction
      | H : anki_result _ _ = _ |- _ =>
          rewrite Hyp in H;
          first [ discriminate H | injection H as <-; discriminate ]
      end ].
  all: clear Hyp; split;
    [ split; [reflexivity | ends_with_line; auto; right; eexists; reflexivity]
    | intros ev Hev; split_in Hev; subst ev; reflexivity ].
Qed.

(** C6: every [addNote] request of a run carries the options
    [allowDuplicate = false] and [duplicateScope = 'deck'].  The store
    answers a duplicate under these options with an error envelope, on
    which [anki_request], on a console that can write the message, gives
    [None]; and whenever [anki_request] gives [None] for the reply, the run
    prints the line [Failed to add the card. Check for errors above.] and
    no line that opens the report of a stored card. *)
Theorem duplicate_is_reported_as_failure (cs : char -> bool)
  (env : list (str * str)) (lines : list str) (replies : list reply)
  (req : request) (r : reply) :
  In (Exchanged req r) (run cs env lines replies) ->
  sent (u "addNote") (Exchanged req r) = true ->
  options_of req =
    Some (JObj [(u "allowDuplicate", JBool false);
                (u "duplicateScope", JStr (u "deck"))])
  /\ (forall resp kv err,
        r = Responds resp ->
        json_load (content resp) = Returns (JObj kv) ->
        assoc (u "error") kv = Some err ->
        truthy err = true ->
        encodable cs (py_str err) = true ->
        anki_result cs r = Returns JNull)
  /\ (anki_result cs r = Returns JNull ->
      In (Printed (nl ++ u "Failed to add the card. Check for errors above."))
         (run cs env lines replies)
      /\ forall line,
           In (Printed line) (run cs env lines replies) ->
           startswith (nl ++ u "Successfully added card to '") line = false).
Proof.
  run_script.
  all: intros Hin Hsent.
  all: split_in Hin; try discriminate Hin.
  all: injection Hin as <- <-.
  all: try (vm_compute in Hsent; discriminate Hsent).
  all: split; [reflexivity | split; [apply error_envelope_gives_None|]].
  all: intros Hnone.
  all: match goal with
       | H : anki_result _ _ = _ |- _ =>
           rewrite Hnone in H;
           first [ discriminate H | injection H as <- ]
       end.
  all: try discriminate.

  all: split;
    [ in_log
    | intros line Hev; change (success_report (Printed line) = false);
      remember (Printed line) as ev eqn:Eev; clear Eev line;
      split_in Hev; subst ev; no_report ].
Qed.

(** C7: tag normalization is idempotent.  The line [a, b ,, c] gives the
    tags a, b, c; and for every line, joining its tags with commas and
    normalizing the result gives the same tags again. *)
Theorem tag_normalization_idempotent :
  normalize_tags (u "a, b ,, c") = [u "a"; u "b"; u "c"]
  /\ forall line : str,
       normalize_tags (join [comma] (normalize_tags line))
       = normalize_tags line.
Proof.
  split; [reflexivity|].
  intros line.
  pose proof (normalize_tags_spec line) as Hall.
  destruct (normalize_tags line) as [|t l] eqn:E; [reflexivity|].
  unfold normalize_tags at 1.
  rewrite split_join.
  - clear E. induction Hall as [|x xs (Hs & Hne & _) _ IH]; [reflexivity|].
    simpl. rewrite Hs. destruct x as [|c x]; [congruence|].
    simpl. rewrite IH. f_equal. exact Hs.
  - discriminate.
  - eapply Forall_impl; [|exact Hall]. intros a (_ & _ & H). exact H.
Qed.


(** C8, as the script has it: the tags of the note are the pieces of the
    tags line between the commas, each stripped of the white space around
    it, the empty ones left out, in the order of the line and as often as
    the line has them: [a, a, b] gives a, a, b.  In every run the
    [addNote] request carries exactly these tags of the line the user
    typed. *)
Theorem note_tags_are_the_stripped_pieces (cs : char -> bool)
  (env : list (str * str))
  (lines : list str) (replies : list reply) (req : request) (r : reply) :
  normalize_tags (u "a, a, b") = [u "a"; u "a"; u "b"]
  /\ (In (Exchanged req r) (run cs env lines replies) ->
      sent (u "addNote") (Exchanged req r) = true ->
      exists line,
        In (Asked tags_prompt (Some line)) (run cs env lines replies)
        /\ andthen (note_of req) (field (u "tags")) =
           Some (JArr (map JStr
                   (map strip
                      (filter (fun piece =>
                                 match strip piece with
                                 | [] => false
                                 | _ => true
                                 end)
                         (split comma line)))))).
Proof.
  split; [reflexivity|].
  run_script.

  all: intros Hin Hsent.
  all: split_in Hin; try discriminate Hin.
  all: try (injection Hin as <- <-).
  all: try (vm_compute in Hsent; discriminate Hsent).
  all: try (eexists; split; [in_log | reflexivity]).
  all: try (vm_compute in Hsent; discriminate Hsent).
  all: eexists; split; [in_log | reflexivity].
Qed.
(** C9: when neither answer to the yes/no prompt is [y] or [n], the run
    goes on with [deck_name] unbound, and reading it for the membership
    test of line 137 raises [UnboundLocalError].  When the first answer is
    [n], the same prompt is shown a second time, and a second [n] leads to
    the prompt for a deck name. *)
Theorem favourite_deck_prompts (w : world) (a1 a2 : str) (rest : list str) :
  stdin w = a1 :: a2 :: rest ->
  (a1 <> u "y" -> a1 <> u "n" -> a2 <> u "y" -> a2 <> u "n" ->
   result_of choose_deck w = Returns None
   /\ result_of (chosen <- choose_deck ;;
                 read_local (u "deck_name") chosen) w
      = Raises (StdError UnboundLocalError
                  (error_text UnboundLocalError (JStr (u "deck_name")))))
  /\ (a1 = u "n" ->
      exists more,
        log_of choose_deck w =
        trace w ++ Asked (nl ++ u "AI_Adder?") (Some a1)
                :: Asked (nl ++ u "AI_Adder?") (Some a2) :: more
        /\ (a2 = u "n" ->
            forall d rest', rest = d :: rest' ->
              more = [Asked (nl ++ u "Enter the name of the deck to add the card to: ")
                            (Some d)]
              /\ result_of choose_deck w = Returns (Some d))).
Proof.
  intros Hin. unfold result_of, log_of, choose_deck, read_local, bind, input,
    ret, lift.
  cbv beta. literals. rewrite Hin.
  split.
  - intros H1y _ _ H2n.
    apply str_eqb_neq in H1y, H2n. rewrite H1y. cbn. literals.
    rewrite H2n. cbn. split; reflexivity.
  - intros ->.
    change (Str.eqb (u "n") (u "y")) with false. cbn. literals.
    destruct (Str.eqb a2 (u "n")) eqn:E2; cbn; literals.
    + destruct rest as [|d rest'].
      * eexists. cbn. rewrite <- !app_assoc. split; [reflexivity|].
        intros _ d rest' [=].
      * eexists. cbn. rewrite <- !app_assoc. split; [reflexivity|].
        intros _ d' rest'' [= <- <-]. split; reflexivity.
    + exists []. cbn. rewrite <- !app_assoc. split; [reflexivity|].
      intros ->. discriminate E2.
Qed.

(** C10, where the script fails it: a 404 whose page is Latin-1.  An
    exception leaves [generate_flashcard_content] on every console: the one
    raised inside the [HTTPError] handler, or before it the one of the
    announcement that the console could not write.  Its caller has no
    handler around the call (line 155), and the run of [create_flashcard]
    ends with the exception too. *)
Theorem generator_lets_an_exception_through (cs : char -> bool)
  (api_key concept : str) (env : list (str * str)) (lines : list str)
  (rest : list reply) :
  (exists e,
     result_of (generate_flashcard_content api_key concept)
       (start cs env lines (latin1_not_found :: rest)) = Raises e)
  /\ (encodable cs concept = true ->
      result_of (generate_flashcard_content api_key concept)
        (start cs env lines (latin1_not_found :: rest))
      = Raises (StdError UnicodeDecodeError
                  (error_text UnicodeDecodeError JNull)))
  /\ (forall r1,
        env = [(u "GEMINI_API_KEY", api_key)] -> api_key <> [] ->
        anki_outcome r1 = Returns (JArr [JStr (u "AI_Adder")]) ->
        exists e,
          result_of create_flashcard
            (start cs env [u "y"; concept] [r1; latin1_not_found])
          = Raises e).
Proof.
  assert (G : forall w,
            next_reply w = latin1_not_found ->
            encodable (charset w) concept = true ->
            generate_flashcard_content api_key concept w =
            (Raises (StdError UnicodeDecodeError
                       (error_text UnicodeDecodeError JNull)),
             exchanged (gemini_request api_key concept) []
               (log (Printed (announcement concept)) w))).
  { intros w Hr Ha.
    apply (generate_on_undecodable_error_body api_key concept w
             (code := 404%Z) (rsn := u "Not Found")
             (body := [99; 97; 102; 233]%N) Ha Hr eq_refl). }
  split; [|split].
  - unfold result_of. destruct (encodable cs concept) eqn:Ea.
    + rewrite G by (reflexivity || exact Ea). eexists. reflexivity.
    + rewrite generate_unannounced by exact Ea. eexists. reflexivity.
  - intros Ea. unfold result_of.
    rewrite G by (reflexivity || exact Ea). reflexivity.
  - intros r1 -> Hne H1.
    destruct (anki_result_of cs _ H1) as [V1 P1].
    destruct api_key as [|c key]; [congruence|].
    unfold_script.
    repeat (run_step_with
              ltac:(fun k c w =>
                      first
                        [ match goal with
                          | Ea : encodable cs concept = true |- _ =>
                              rewrite (G w eq_refl Ea)
                          | Ea : encodable cs concept = false |- _ =>
                              rewrite (generate_unannounced k c w Ea)
                          end
                        | let Ea := fresh "Ea" in
                          destruct (encodable cs concept) eqn:Ea;
                          [ rewrite (G w eq_refl Ea)
                          | rewrite (generate_unannounced k c w Ea) ] ])
              by_computing;
            rewrite ?first_reply_cons, ?V1, ?P1;
            reduce_run).
    all: fold_script; eexists; reflexivity.
Qed.

End Script.

(* ================================================================== *)
(** * The theorems at work on the example worlds *)
(* ================================================================== *)

(** The scenario of C1 with the parser of the examples, on a UTF-8
    console. *)
Lemma end_to_end_scenario_witness :
  assoc (u "GEMINI_API_KEY") example_env = Some (u "k3y")
  /\ nth_error
       (run table_loads table_loads constant_repr class_name utf8 example_env
          [u "y"; u "y"; u "ubiquitous"; u "vocab, gre"]
          [decks_reply; created_reply; generated_reply; added_reply]) 12
     = Some (Exchanged
               (anki_http_request (u "addNote")
                  [(u "note",
                    make_note (u "AI_Adder") (u "ubiquitous")
                      (JStr (u "<p>Def</p><i>Example</i>"))
                      [u "vocab"; u "gre"])])
               added_reply)
  /\ nth_error
       (run table_loads table_loads constant_repr class_name utf8 example_env
          [u "y"; u "y"; u "ubiquitous"; u "vocab, gre"]
          [decks_reply; created_reply; generated_reply; added_reply]) 16
     = Some (Printed (u "  Tags: vocab, gre")).
Proof.
  split; [reflexivity|].
  unfold generated_reply, ok_reply.
  erewrite (@end_to_end_scenario table_loads table_loads constant_repr
             class_name utf8 example_env (u "k3y") decks_reply created_reply
             added_reply _ _ _ (JInt 1519323742721) (JInt 1496198395707));
    first [ split; reflexivity | reflexivity | discriminate ].
Defined.

(** C1, the claim as it is worded: the note of the scenario is not the
    record of four fields.  It has a fifth, the options of lines 175-178,
    between the fields and the tags. *)
Lemma scenario_note_carries_options :
  exists req,
    nth_error
      (run table_loads table_loads constant_repr class_name utf8 example_env
         [u "y"; u "y"; u "ubiquitous"; u "vocab, gre"]
         [decks_reply; created_reply; generated_reply; added_reply]) 12
    = Some (Exchanged req added_reply)
    /\ sent (u "addNote") (Exchanged req added_reply) = true
    /\ options_of req =
       Some (JObj [(u "allowDuplicate", JBool false);
                   (u "duplicateScope", JStr (u "deck"))])
    /\ note_of req <>
       Some (JObj [(u "deckName", JStr (u "AI_Adder"));
                   (u "modelName", JStr (u "Basic"));
                   (u "fields",
                    JObj [(u "Front", JStr (u "ubiquitous"));
                          (u "Back", JStr (u "<p>Def</p><i>Example</i>"))]);
                   (u "tags", JArr [JStr (u "vocab"); JStr (u "gre")])]).
Proof.
  eexists. split; [reflexivity|].
  split; [reflexivity|]. split; [reflexivity|]. discriminate.
Defined.

(** C2 on the envelope of the scenario. *)
Lemma generate_returns_first_text_witness :
  first_text
    (JObj [(u "candidates",
            JArr [JObj [(u "content",
                         JObj [(u "parts",
                                JArr [JObj [(u "text",
                                             JStr (u "<p>Def</p><i>Example</i>"))]])])]])])
  = Some (JStr (u "<p>Def</p><i>Example</i>"))
  /\ result_of
       (generate_flashcard_content table_loads constant_repr class_name
          (u "k3y") (u "ubiquitous"))
       (start utf8 example_env [] [generated_reply])
     = Returns (JStr (u "<p>Def</p><i>Example</i>")).
Proof.
  split; [reflexivity|].
  eapply (@generate_returns_first_text table_loads constant_repr class_name);
    reflexivity.
Defined.

(** C3 at the bad gateway. *)
Lemma generator_raises_witness :
  decode [255%N] = None
  /\ result_of
       (generate_flashcard_content table_loads constant_repr class_name
          (u "k3y") (u "ubiquitous"))
       (start utf8 example_env [] [bad_gateway])
     = Raises (StdError UnicodeDecodeError (u "UnicodeDecodeError")).
Proof.
  split; [reflexivity|].
  apply (@generator_raises_on_undecodable_error_body table_loads constant_repr
           class_name (u "k3y") (u "ubiquitous")
           (start utf8 example_env [] [bad_gateway]) 502%Z (u "Bad Gateway")
           [255%N] eq_refl eq_refl eq_refl).
Defined.

(** C4 on a UTF-8 console, where the store's message is a lone
    surrogate. *)
Lemma anki_request_raises_witness :
  encodable utf8 [55296%N] = false
  /\ result_of
       (anki_request table_loads constant_repr class_name (u "addNote") [])
       (start utf8 example_env [] [surrogate_error_reply])
     = Raises (StdError UnicodeEncodeError (u "UnicodeEncodeError"))
  /\ log_of
       (anki_request table_loads constant_repr class_name (u "addNote") [])
       (start utf8 example_env [] [surrogate_error_reply])
     = [Exchanged (anki_http_request (u "addNote") []) surrogate_error_reply].
Proof.
  split; [reflexivity|].
  pose proof
    (@anki_request_raises_on_unwritable_error table_loads constant_repr
       class_name (u "addNote") []
       (start utf8 example_env [] [surrogate_error_reply])
       {| status := 200; reason := u "OK";
          content := json_text "{'result': null, 'error': '\ud800'}" |}
       [(u "result", JNull); (u "error", JStr [55296%N])]
       (JStr [55296%N])
       eq_refl eq_refl eq_refl eq_refl eq_refl) as (_ & Hres & _ & Hlog).
  split; [exact Hres | exact Hlog].
Defined.

(** C5, the claim as it is worded: the user answers [Y], which is not
    [y], and the deck is created and the note sent all the same. *)
Lemma capital_Y_accepts_the_creation :
  declined_to_the_letter
    (run table_loads table_loads constant_repr class_name utf8 example_env
       [u "y"; u "Y"; u "ubiquitous"; u "vocab, gre"]
       [decks_reply; created_reply; generated_reply; added_reply])
  /\ existsb (sent (u "addNote"))
       (run table_loads table_loads constant_repr class_name utf8 example_env
          [u "y"; u "Y"; u "ubiquitous"; u "vocab, gre"]
          [decks_reply; created_reply; generated_reply; added_reply])
     = true.
Proof.
  split; [|reflexivity].
  exists (u "AI_Adder"), (u "Y"). split; [|discriminate].
  apply (nth_error_In _ 5). reflexivity.
Defined.

(** C5 as amended, where the user answers [n]. *)
Lemma no_note_without_a_deck_witness :
  declined
    (run table_loads table_loads constant_repr class_name utf8 example_env
       [u "y"; u "n"] [decks_reply])
  /\ aborted
       (create_flashcard table_loads table_loads constant_repr class_name
          (start utf8 example_env [u "y"; u "n"] [decks_reply]))
  /\ no_note
       (run table_loads table_loads constant_repr class_name utf8 example_env
          [u "y"; u "n"] [decks_reply]).
Proof.
  assert (H : declined
                (run table_loads table_loads constant_repr class_name utf8
                   example_env [u "y"; u "n"] [decks_reply])).
  { exists (u "AI_Adder"), (u "n"). split; [|discriminate].
    apply (nth_error_In _ 5). reflexivity. }
  split; [exact H|].
  apply (@no_note_without_a_deck table_loads table_loads constant_repr
           class_name utf8 example_env [u "y"; u "n"] [decks_reply]).
  left. exact H.
Defined.

(** C6 on the scenario with the note refused as a duplicate. *)
Lemma duplicate_is_reported_witness :
  In (Printed (nl ++ u "Failed to add the card. Check for errors above."))
     (run table_loads table_loads constant_repr class_name utf8 example_env
        [u "y"; u "y"; u "ubiquitous"; u "vocab, gre"]
        [decks_reply; created_reply; generated_reply; duplicate_reply])
  /\ forall line,
       In (Printed line)
         (run table_loads table_loads constant_repr class_name utf8
            example_env
            [u "y"; u "y"; u "ubiquitous"; u "vocab, gre"]
            [decks_reply; created_reply; generated_reply; duplicate_reply]) ->
       startswith (nl ++ u "Successfully added card to '") line = false.
Proof.
  refine
    (proj2 (proj2
       (@duplicate_is_reported_as_failure table_loads table_loads constant_repr
          class_name utf8 example_env
          [u "y"; u "y"; u "ubiquitous"; u "vocab, gre"]
          [decks_reply; created_reply; generated_reply; duplicate_reply]
          (anki_http_request (u "addNote")
             [(u "note",
               make_note (u "AI_Adder") (u "ubiquitous")
                 (JStr (u "<p>Def</p><i>Example</i>")) [u "vocab"; u "gre"])])
          duplicate_reply _ eq_refl)) eq_refl).
  apply (nth_error_In _ 12). reflexivity.
Defined.

(** C8, the claim as it is worded: a tag given twice is kept twice. *)
Lemma repeated_tags_are_kept :
  normalize_tags (u "a, a, b") = [u "a"; u "a"; u "b"]
  /\ ~ NoDup (normalize_tags (u "a, a, b")).
Proof.
  split; [reflexivity|].
  intros H. change (NoDup [u "a"; u "a"; u "b"]) in H.
  inversion H as [|x l Hx _]. apply Hx. left. reflexivity.
Defined.

(** C8 as amended, on the scenario. *)
Lemma note_tags_witness :
  exists line,
    In (Asked tags_prompt (Some line))
       (run table_loads table_loads constant_repr class_name utf8 example_env
          [u "y"; u "y"; u "ubiquitous"; u "vocab, vocab"]
          [decks_reply; created_reply; generated_reply; added_reply])
    /\ Some (JArr [JStr (u "vocab"); JStr (u "vocab")]) =
       Some (JArr (map JStr
               (map strip
                  (filter (fun piece =>
                             match strip piece with
                             | [] => false
                             | _ => true
                             end)
                     (split comma line))))).
Proof.
  refine
    (proj2
       (@note_tags_are_the_stripped_pieces table_loads table_loads
          constant_repr class_name utf8 example_env
          [u "y"; u "y"; u "ubiquitous"; u "vocab, vocab"]
          [decks_reply; created_reply; generated_reply; added_reply]
          (anki_http_request (u "addNote")
             [(u "note",
               make_note (u "AI_Adder") (u "ubiquitous")
                 (JStr (u "<p>Def</p><i>Example</i>"))
                 [u "vocab"; u "vocab"])])
          added_reply) _ eq_refl).
  apply (nth_error_In _ 12). reflexivity.
Defined.

(** C9 where the user types [maybe] and then [no]. *)
Lemma favourite_deck_prompts_witness :
  result_of (choose_deck class_name)
    (start utf8 example_env [u "maybe"; u "no"] [])
  = Returns None
  /\ result_of
       (bind (choose_deck class_name) (read_local class_name (u "deck_name")))
       (start utf8 example_env [u "maybe"; u "no"] [])
     = Raises (StdError UnboundLocalError (u "UnboundLocalError")).
Proof.
  apply (proj1 (@favourite_deck_prompts class_name
                  (start utf8 example_env [u "maybe"; u "no"] [])
                  (u "maybe") (u "no") [] eq_refl));
    discriminate.
Defined.

(** C10 with the parser of the examples: the run ends with the
    exception. *)
Lemma generator_lets_an_exception_through_witness :
  exists e,
    result_of
      (create_flashcard table_loads table_loads constant_repr class_name)
      (start utf8 [(u "GEMINI_API_KEY", u "k3y")] [u "y"; u "ubiquitous"]
         [ok_reply "{'result': ['AI_Adder'], 'error': null}";
          latin1_not_found])
    = Raises e.
Proof.
  apply (proj2 (proj2 (@generator_lets_an_exception_through table_loads
                         table_loads constant_repr class_name utf8 (u "k3y")
                         (u "ubiquitous")
                         [(u "GEMINI_API_KEY", u "k3y")] [] []))
           (ok_reply "{'result': ['AI_Adder'], 'error': null}")
           eq_refl);
    [discriminate | reflexivity].
Defined.
